(** * libspdm: error responses, response-state gating, EC size reporting,
      SHA-384/512 argument checks and the dummy ChaCha20-Poly1305 backend

    A shallow embedding of
    - library/spdm_requester_lib/encap_error.c
    - library/spdm_responder_lib/libspdm_rsp_handle_response_state.c
    - os_stub/cryptlib_openssl/pk/ec.c
    - os_stub/cryptlib_mbedtls/hash/sha512.c
    - unit_test/test_size/cryptlib_dummy/cipher/aead_chacha20_poly1305.c
    with the integer widths of include/hal/ia32/processor_bind.h.

    Conventions.  A [uint8] is a [Z] in [0, 2^8), a [uintn] a [Z] in
    [0, 2^32); arithmetic that can leave the range has its wrap-around
    written out.  A byte buffer is a [list Z]; a pointer that the code
    compares with NULL is an [option].  *)

From Stdlib Require Import ZArith List Bool Lia.
Import ListNotations.
Local Open Scope Z_scope.

(* ===================================================================== *)
(** * Definitions *)
(* ===================================================================== *)

(** ** Base types *)

Module Base.

(** [boolean] of processor_bind.h: one byte holding 0 (FALSE) or 1 (TRUE). *)
Definition boolean := bool.
Definition TRUE : boolean := true.
Definition FALSE : boolean := false.

(** [p == NULL] for a pointer that may be NULL. *)
Definition is_null {A : Type} (p : option A) : bool :=
  match p with
  | None => true
  | Some _ => false
  end.

(** Conversion to [uint8] (unsigned char). *)
Definition to_uint8 (z : Z) : Z := z mod 2 ^ 8.

(** Conversion to [uintn]; processor_bind.h (ia32): typedef uint32 uintn. *)
Definition to_uintn (z : Z) : Z := z mod 2 ^ 32.

(** MAX_UINTN of processor_bind.h. *)
Definition MAX_UINTN : Z := 0xFFFFFFFF.

(** INT_MAX of the C library for the 32-bit [int] that int32 is bound to. *)
Definition INT_MAX : Z := 0x7FFFFFFF.

(** The status codes the embedded functions document. *)
Inductive return_status : Set :=
| RETURN_SUCCESS
| RETURN_BUFFER_TOO_SMALL
| RETURN_DEVICE_ERROR
| RETURN_SECURITY_VIOLATION.

End Base.

(** ** ASSERT *)

Module Debug.

(** What a call does: it returns a value, or it stops in a failed ASSERT and
    returns nothing. *)
Inductive outcome (A : Type) : Type :=
| Returns (a : A)
| AssertFailed.

Arguments Returns {A} a.
Arguments AssertFailed {A}.

Definition bind {A B : Type} (m : outcome A) (k : A -> outcome B) : outcome B :=
  match m with
  | Returns a => k a
  | AssertFailed => AssertFailed
  end.

(** ASSERT is a macro of the debug library, whose header is not among the
    sources.  Whether it is compiled in is the parameter [enabled]: compiled
    out it expands to nothing; compiled in, a false condition stops the call. *)
Definition ASSERT (enabled : bool) (cond : bool) : outcome unit :=
  if enabled && negb cond then AssertFailed else Returns tt.

End Debug.

Notation "x <- m ;; k" := (Debug.bind m (fun x => k))
  (at level 61, m at next level, right associativity).
Notation "m ;;; k" := (Debug.bind m (fun _ => k))
  (at level 61, right associativity).

(** ** Memory primitives (memlib) *)

Module Mem.

(** The bytes [bytes] stored at offset [off] of [buf]; the bytes before
    [off] and after the stored run are kept.  The callers below store inside
    the buffer; a store that runs over its end (undefined in C) lengthens the
    list here. *)
Definition store_bytes (buf : list Z) (off : Z) (bytes : list Z) : list Z :=
  firstn (Z.to_nat off) buf ++ bytes
    ++ skipn (Z.to_nat off + length bytes) buf.

(** One byte stored at [off]. *)
Definition store8 (buf : list Z) (off : Z) (v : Z) : list Z :=
  store_bytes buf off [v].

(** copy_mem (dst + off, src, len): the first [len] bytes of [src]. *)
Definition copy_mem (dst : list Z) (off : Z) (src : list Z) (len : Z) : list Z :=
  store_bytes dst off (firstn (Z.to_nat len) src).

(** zero_mem (buf, len). *)
Definition zero_mem (buf : list Z) (len : Z) : list Z :=
  store_bytes buf 0 (repeat 0 (Z.to_nat len)).

End Mem.

(** ** SPDM message constants *)

Module Spdm.

(** The message codes and the ERROR codes are declared in the industry-standard
    header spdm.h, which is not among the sources; the values are those of
    DSP0274, the wire format the specification fixes. *)
Definition SPDM_MESSAGE_VERSION_11 : Z := 0x11.
Definition SPDM_ERROR : Z := 0x7F.
Definition SPDM_RESPOND_IF_READY : Z := 0xFF.
Definition SPDM_ERROR_CODE_BUSY : Z := 0x03.
Definition SPDM_ERROR_CODE_REQUEST_IN_FLIGHT : Z := 0x08.
Definition SPDM_ERROR_CODE_RESPONSE_NOT_READY : Z := 0x42.
Definition SPDM_ERROR_CODE_REQUEST_RESYNCH : Z := 0x43.

(** spdm_message_header_t: the four one-byte fields every message begins
    with, at these offsets. *)
Definition off_spdm_version : Z := 0.
Definition off_request_response_code : Z := 1.
Definition off_param1 : Z := 2.
Definition off_param2 : Z := 3.

(** sizeof (spdm_error_response_t): the header alone. *)
Definition sizeof_spdm_error_response_t : Z := 4.

End Spdm.

(** ** library/spdm_requester_lib/encap_error.c *)

Module EncapError.
Import Base Debug Mem Spdm.

(** The header stores shared by the two functions of the file. *)
Definition store_error_header (response : list Z) (error_code error_data : Z)
  : list Z :=
  let r := store8 response off_spdm_version SPDM_MESSAGE_VERSION_11 in
  let r := store8 r off_request_response_code SPDM_ERROR in
  let r := store8 r off_param1 error_code in
  store8 r off_param2 error_data.

(** spdm_generate_encap_error_response.  [response_size] is the value the
    in/out pointer holds on entry; the result is the status, the value it
    holds on return, and the response buffer.  [context] is not read. *)
Definition spdm_generate_encap_error_response {C : Type}
  (assert_enabled : bool) (context : C) (error_code error_data : Z)
  (response_size : Z) (response : list Z)
  : outcome (return_status * Z * list Z) :=
  ASSERT assert_enabled (sizeof_spdm_error_response_t <=? response_size) ;;;
  let response_size := sizeof_spdm_error_response_t in
  let spdm_response := store_error_header response error_code error_data in
  Returns (RETURN_SUCCESS, response_size, spdm_response).

(** spdm_generate_encap_extended_error_response.  The sum of the two sizes
    is a [uintn] sum. *)
Definition spdm_generate_encap_extended_error_response {C : Type}
  (assert_enabled : bool) (context : C) (error_code error_data : Z)
  (extended_error_data_size : Z) (extended_error_data : list Z)
  (response_size : Z) (response : list Z)
  : outcome (return_status * Z * list Z) :=
  ASSERT assert_enabled
    (to_uintn (sizeof_spdm_error_response_t + extended_error_data_size)
       <=? response_size) ;;;
  let response_size :=
    to_uintn (sizeof_spdm_error_response_t + extended_error_data_size) in
  let spdm_response := store_error_header response error_code error_data in
  let spdm_response :=
    copy_mem spdm_response sizeof_spdm_error_response_t
      extended_error_data extended_error_data_size in
  Returns (RETURN_SUCCESS, response_size, spdm_response).

End EncapError.

(** ** library/spdm_responder_lib/libspdm_rsp_handle_response_state.c *)

Module Responder.
Import Base Mem Spdm.

(** spdm_response_state_t. *)
Inductive spdm_response_state_t : Set :=
| SPDM_RESPONSE_STATE_NORMAL
| SPDM_RESPONSE_STATE_BUSY
| SPDM_RESPONSE_STATE_NOT_READY
| SPDM_RESPONSE_STATE_NEED_RESYNC
| SPDM_RESPONSE_STATE_PROCESSING_ENCAP.

(** spdm_connection_state_t. *)
Inductive spdm_connection_state_t : Set :=
| SPDM_CONNECTION_STATE_NOT_STARTED
| SPDM_CONNECTION_STATE_AFTER_VERSION
| SPDM_CONNECTION_STATE_AFTER_CAPABILITIES
| SPDM_CONNECTION_STATE_NEGOTIATED
| SPDM_CONNECTION_STATE_AFTER_DIGESTS
| SPDM_CONNECTION_STATE_AFTER_CERTIFICATE
| SPDM_CONNECTION_STATE_AUTHENTICATED.

(** spdm_error_data_response_not_ready_t: the four [uint8] fields the
    handler assigns. *)
Record spdm_error_data_response_not_ready_t : Set := {
  rd_exponent : Z;
  request_code : Z;
  token : Z;
  rd_tm : Z
}.

(** The fields of spdm_context_t that the handler and its callees touch. *)
Record spdm_context_t : Set := {
  response_state : spdm_response_state_t;
  connection_state : spdm_connection_state_t;
  last_spdm_request_size : Z;
  last_spdm_request : list Z;
  cache_spdm_request_size : Z;
  cache_spdm_request : list Z;
  error_data : spdm_error_data_response_not_ready_t;
  current_token : Z
}.

Definition set_connection_state (c : spdm_context_t)
  (s : spdm_connection_state_t) : spdm_context_t :=
  {| response_state := response_state c;
     connection_state := s;
     last_spdm_request_size := last_spdm_request_size c;
     last_spdm_request := last_spdm_request c;
     cache_spdm_request_size := cache_spdm_request_size c;
     cache_spdm_request := cache_spdm_request c;
     error_data := error_data c;
     current_token := current_token c |}.

Definition set_cache_spdm_request_size (c : spdm_context_t) (n : Z)
  : spdm_context_t :=
  {| response_state := response_state c;
     connection_state := connection_state c;
     last_spdm_request_size := last_spdm_request_size c;
     last_spdm_request := last_spdm_request c;
     cache_spdm_request_size := n;
     cache_spdm_request := cache_spdm_request c;
     error_data := error_data c;
     current_token := current_token c |}.

Definition set_cache_spdm_request (c : spdm_context_t) (b : list Z)
  : spdm_context_t :=
  {| response_state := response_state c;
     connection_state := connection_state c;
     last_spdm_request_size := last_spdm_request_size c;
     last_spdm_request := last_spdm_request c;
     cache_spdm_request_size := cache_spdm_request_size c;
     cache_spdm_request := b;
     error_data := error_data c;
     current_token := current_token c |}.

Definition set_error_data (c : spdm_context_t)
  (e : spdm_error_data_response_not_ready_t) : spdm_context_t :=
  {| response_state := response_state c;
     connection_state := connection_state c;
     last_spdm_request_size := last_spdm_request_size c;
     last_spdm_request := last_spdm_request c;
     cache_spdm_request_size := cache_spdm_request_size c;
     cache_spdm_request := cache_spdm_request c;
     error_data := e;
     current_token := current_token c |}.

(** Assignments to the fields of [error_data]. *)
Definition set_rd_exponent (c : spdm_context_t) (v : Z) : spdm_context_t :=
  set_error_data c
    {| rd_exponent := v; request_code := request_code (error_data c);
       token := token (error_data c); rd_tm := rd_tm (error_data c) |}.

Definition set_rd_tm (c : spdm_context_t) (v : Z) : spdm_context_t :=
  set_error_data c
    {| rd_exponent := rd_exponent (error_data c);
       request_code := request_code (error_data c);
       token := token (error_data c); rd_tm := v |}.

Definition set_request_code (c : spdm_context_t) (v : Z) : spdm_context_t :=
  set_error_data c
    {| rd_exponent := rd_exponent (error_data c); request_code := v;
       token := token (error_data c); rd_tm := rd_tm (error_data c) |}.

Definition set_token (c : spdm_context_t) (v : Z) : spdm_context_t :=
  set_error_data c
    {| rd_exponent := rd_exponent (error_data c);
       request_code := request_code (error_data c);
       token := v; rd_tm := rd_tm (error_data c) |}.

Definition set_current_token (c : spdm_context_t) (t : Z) : spdm_context_t :=
  {| response_state := response_state c;
     connection_state := connection_state c;
     last_spdm_request_size := last_spdm_request_size c;
     last_spdm_request := last_spdm_request c;
     cache_spdm_request_size := cache_spdm_request_size c;
     cache_spdm_request := cache_spdm_request c;
     error_data := error_data c;
     current_token := t |}.

(** Modelled from the spec: the object representation of
    spdm_error_data_response_not_ready_t, which the handler passes as bytes;
    the struct is declared in spdm.h, which is not among the sources.  The
    order is that of the DSP0274 wire format the specification refers to
    (RDTExponent, RequestCode, Token, RDTM). *)
Definition error_data_bytes (e : spdm_error_data_response_not_ready_t)
  : list Z :=
  [rd_exponent e; request_code e; token e; rd_tm e].

(** sizeof (spdm_error_data_response_not_ready_t). *)
Definition sizeof_spdm_error_data_response_not_ready_t : Z := 4.

Section Callees.

(** The version byte the responder puts in the header of an ERROR message;
    the code that chooses it is not among the sources. *)
Variable response_version : spdm_context_t -> Z.

(** Modelled from the spec: libspdm_generate_error_response, defined in a
    file of the responder library that is not among the sources.  The reply
    is ERROR(error_code): the four-byte header version,
    request_response_code, param1, param2 (spec 4.1), with the shape of its
    requester-side sibling in encap_error.c; the context is only read. *)
Definition libspdm_generate_error_response (c : spdm_context_t)
  (error_code error_data : Z) (response_size : Z) (response : list Z)
  : return_status * Z * list Z :=
  (RETURN_SUCCESS, sizeof_spdm_error_response_t,
   [response_version c; SPDM_ERROR; error_code; error_data]).

(** Modelled from the spec: libspdm_generate_extended_error_response, absent
    like the former: the same header followed by the extended error data. *)
Definition libspdm_generate_extended_error_response (c : spdm_context_t)
  (error_code error_data : Z)
  (extended_error_data_size : Z) (extended_error_data : list Z)
  (response_size : Z) (response : list Z)
  : return_status * Z * list Z :=
  (RETURN_SUCCESS,
   to_uintn (sizeof_spdm_error_response_t + extended_error_data_size),
   [response_version c; SPDM_ERROR; error_code; error_data]
     ++ firstn (Z.to_nat extended_error_data_size) extended_error_data).

(** Modelled from the spec: spdm_set_connection_state, absent from the
    sources: it stores the new connection state in the context. *)
Definition spdm_set_connection_state (c : spdm_context_t)
  (s : spdm_connection_state_t) : spdm_context_t :=
  set_connection_state c s.

(** The body of [if (request_code != SPDM_RESPOND_IF_READY)] in the
    NOT_READY case, statement by statement. *)
Definition record_not_ready (c : spdm_context_t) (req_code : Z)
  : spdm_context_t :=
  let c := set_cache_spdm_request_size c (last_spdm_request_size c) in
  let c := set_cache_spdm_request c
             (copy_mem (cache_spdm_request c) 0
                (last_spdm_request c) (last_spdm_request_size c)) in
  let c := set_rd_exponent c 1 in
  let c := set_rd_tm c 1 in
  let c := set_request_code c req_code in
  (* error_data.token = current_token++ *)
  let old_token := current_token c in
  let c := set_current_token c (to_uint8 (old_token + 1)) in
  set_token c old_token.

(** spdm_responder_handle_response_state.  The result is the status, the
    context after the call, and the response size and response buffer after
    the call; the status a callee returns is dropped, as in the source. *)
Definition spdm_responder_handle_response_state (c : spdm_context_t)
  (req_code : Z) (response_size : Z) (response : list Z)
  : return_status * spdm_context_t * Z * list Z :=
  match response_state c with
  | SPDM_RESPONSE_STATE_BUSY =>
      let '(_, response_size, response) :=
        libspdm_generate_error_response c SPDM_ERROR_CODE_BUSY 0
          response_size response in
      (RETURN_SUCCESS, c, response_size, response)
  | SPDM_RESPONSE_STATE_NEED_RESYNC =>
      let '(_, response_size, response) :=
        libspdm_generate_error_response c SPDM_ERROR_CODE_REQUEST_RESYNCH 0
          response_size response in
      let c := spdm_set_connection_state c SPDM_CONNECTION_STATE_NOT_STARTED in
      (RETURN_SUCCESS, c, response_size, response)
  | SPDM_RESPONSE_STATE_NOT_READY =>
      let c :=
        if negb (req_code =? SPDM_RESPOND_IF_READY)
        then record_not_ready c req_code
        else c in
      let '(_, response_size, response) :=
        libspdm_generate_extended_error_response c
          SPDM_ERROR_CODE_RESPONSE_NOT_READY 0
          sizeof_spdm_error_data_response_not_ready_t
          (error_data_bytes (error_data c))
          response_size response in
      (RETURN_SUCCESS, c, response_size, response)
  | SPDM_RESPONSE_STATE_PROCESSING_ENCAP =>
      let '(_, response_size, response) :=
        libspdm_generate_error_response c SPDM_ERROR_CODE_REQUEST_IN_FLIGHT 0
          response_size response in
      (RETURN_SUCCESS, c, response_size, response)
  | SPDM_RESPONSE_STATE_NORMAL =>
      (RETURN_SUCCESS, c, response_size, response)
  end.

End Callees.

End Responder.

(** ** os_stub/cryptlib_openssl/pk/ec.c *)

Module Ec.
Import Base Debug Mem.

(** The OpenSSL functions the wrappers call.  OpenSSL is not part of the
    repository, so its functions are an interface: the theorems hold for
    every implementation of it.  A function that can fail returns [None]
    (a NULL pointer) or a zero status. *)
Class OpenSSL : Type := {
  EC_KEY : Type;
  EC_POINT : Type;
  BIGNUM : Type;
  ECDSA_SIG : Type;
  (** EC_GROUP_get_curve_name (EC_KEY_get0_group (key)) *)
  EC_KEY_curve_name : EC_KEY -> Z;
  (** EC_KEY_generate_key: the status and the key after the call *)
  EC_KEY_generate_key : EC_KEY -> Z * EC_KEY;
  EC_KEY_get0_public_key : EC_KEY -> option EC_POINT;
  BN_new : option BIGNUM;
  (** EC_POINT_get_affine_coordinates on the key's group: the status and
      the two coordinates stored in bn_x and bn_y *)
  EC_POINT_get_affine_coordinates :
    EC_KEY -> EC_POINT -> BIGNUM -> BIGNUM -> Z * BIGNUM * BIGNUM;
  BN_num_bytes : BIGNUM -> Z;
  (** BN_bn2bin: the big-endian bytes, BN_num_bytes of them *)
  BN_bn2bin : BIGNUM -> list Z;
  ECDSA_do_sign : list Z -> Z -> EC_KEY -> option ECDSA_SIG;
  (** ECDSA_SIG_get0: r and s *)
  ECDSA_SIG_get0 : ECDSA_SIG -> BIGNUM * BIGNUM
}.

(** Curve identifiers of OpenSSL's obj_mac.h. *)
Definition NID_X9_62_prime256v1 : Z := 415.
Definition NID_secp384r1 : Z := 715.
Definition NID_secp521r1 : Z := 716.

(** Hash identifiers and digest sizes of cryptlib.h, which is not among the
    sources. *)
Definition CRYPTO_NID_SHA256 : Z := 0x0001.
Definition CRYPTO_NID_SHA384 : Z := 0x0002.
Definition CRYPTO_NID_SHA512 : Z := 0x0003.
Definition SHA256_DIGEST_SIZE : Z := 32.
Definition SHA384_DIGEST_SIZE : Z := 48.
Definition SHA512_DIGEST_SIZE : Z := 64.

(** The switch on the curve that every wrapper repeats: the half size, or
    [None] in the default case. *)
Definition half_size_of_nid (openssl_nid : Z) : option Z :=
  if openssl_nid =? NID_X9_62_prime256v1 then Some 32
  else if openssl_nid =? NID_secp384r1 then Some 48
  else if openssl_nid =? NID_secp521r1 then Some 66
  else None.

(** The switch on hash_nid of ecdsa_sign: does hash_size match? *)
Definition hash_size_matches (hash_nid hash_size : Z) : bool :=
  if hash_nid =? CRYPTO_NID_SHA256 then hash_size =? SHA256_DIGEST_SIZE
  else if hash_nid =? CRYPTO_NID_SHA384 then hash_size =? SHA384_DIGEST_SIZE
  else if hash_nid =? CRYPTO_NID_SHA512 then hash_size =? SHA512_DIGEST_SIZE
  else false.

(** What a wrapper with an in/out size leaves behind: the return value, the
    output buffer and the value behind the size pointer ([None] for a NULL
    pointer). *)
Record sized_result : Type := {
  ret_val : boolean;
  buffer_out : option (list Z);
  size_out : option Z
}.

Section Wrappers.
Context {ossl : OpenSSL}.
Variable assert_enabled : bool.

(** The common tail of ec_get_pub_key and ec_generate_key, from
    [ec_point = EC_KEY_get0_public_key (ec_key)] to [done:]; on entry the
    size pointer already holds [half_size * 2]. *)
Definition write_public_xy (ec_key : EC_KEY) (half_size : Z)
  (public_key : option (list Z)) : outcome sized_result :=
  let public_key_size := half_size * 2 in
  let fail := {| ret_val := FALSE; buffer_out := public_key;
                 size_out := Some public_key_size |} in
  match EC_KEY_get0_public_key ec_key with
  | None => Returns fail
  | Some ec_point =>
      match BN_new, BN_new with
      | Some bn_x, Some bn_y =>
          let '(st, bn_x, bn_y) :=
            EC_POINT_get_affine_coordinates ec_key ec_point bn_x bn_y in
          if to_uint8 st =? 0 then Returns fail
          else
            let x_size := BN_num_bytes bn_x in
            let y_size := BN_num_bytes bn_y in
            if (x_size <=? 0) || (y_size <=? 0) then Returns fail
            else
              ASSERT assert_enabled
                ((x_size <=? half_size) && (y_size <=? half_size)) ;;;
              let public_key :=
                match public_key with
                | Some buf =>
                    let buf := zero_mem buf public_key_size in
                    let buf :=
                      store_bytes buf (0 + half_size - x_size) (BN_bn2bin bn_x) in
                    Some (store_bytes buf (half_size + half_size - y_size)
                            (BN_bn2bin bn_y))
                | None => None
                end in
              Returns {| ret_val := TRUE; buffer_out := public_key;
                         size_out := Some public_key_size |}
      | _, _ => Returns fail
      end
  end.

(** ec_get_pub_key. *)
Definition ec_get_pub_key (ec_context : option EC_KEY)
  (public_key : option (list Z)) (public_key_size : option Z)
  : outcome sized_result :=
  let unchanged := {| ret_val := FALSE; buffer_out := public_key;
                      size_out := public_key_size |} in
  match ec_context, public_key_size with
  | Some ec_key, Some size =>
      if is_null public_key && negb (size =? 0)
      then Returns unchanged
      else
        match half_size_of_nid (EC_KEY_curve_name ec_key) with
        | None => Returns unchanged
        | Some half_size =>
            if size <? half_size * 2
            then Returns {| ret_val := FALSE; buffer_out := public_key;
                            size_out := Some (half_size * 2) |}
            else write_public_xy ec_key half_size public_key
        end
  | _, _ => Returns unchanged
  end.

(** ec_generate_key; the fourth component of the result is the EC context
    after the call. *)
Definition ec_generate_key (ec_context : option EC_KEY)
  (public : option (list Z)) (public_size : option Z)
  : outcome (sized_result * option EC_KEY) :=
  let unchanged := {| ret_val := FALSE; buffer_out := public;
                      size_out := public_size |} in
  match ec_context, public_size with
  | Some ec_key, Some size =>
      if is_null public && negb (size =? 0)
      then Returns (unchanged, Some ec_key)
      else
        let '(st, ec_key) := EC_KEY_generate_key ec_key in
        if to_uint8 st =? 0 then Returns (unchanged, Some ec_key)
        else
          match half_size_of_nid (EC_KEY_curve_name ec_key) with
          | None => Returns (unchanged, Some ec_key)
          | Some half_size =>
              if size <? half_size * 2
              then Returns ({| ret_val := FALSE; buffer_out := public;
                               size_out := Some (half_size * 2) |},
                            Some ec_key)
              else
                r <- write_public_xy ec_key half_size public ;;
                Returns (r, Some ec_key)
          end
  | _, _ => Returns (unchanged, ec_context)
  end.

(** ecdsa_sign.  The size pointer is dereferenced unchecked, so [sig_size]
    is the value behind it. *)
Definition ecdsa_sign (ec_context : option EC_KEY) (hash_nid : Z)
  (message_hash : option (list Z)) (hash_size : Z)
  (signature : option (list Z)) (sig_size : Z) : outcome sized_result :=
  let unchanged := {| ret_val := FALSE; buffer_out := signature;
                      size_out := Some sig_size |} in
  match ec_context, message_hash, signature with
  | Some ec_key, Some hash, Some sig =>
      match half_size_of_nid (EC_KEY_curve_name ec_key) with
      | None => Returns unchanged
      | Some half_size =>
          if sig_size <? to_uintn (half_size * 2)
          then Returns {| ret_val := FALSE; buffer_out := signature;
                          size_out := Some (to_uintn (half_size * 2)) |}
          else
            let sig_size := to_uintn (half_size * 2) in
            let sig := zero_mem sig sig_size in
            let fail := {| ret_val := FALSE; buffer_out := Some sig;
                           size_out := Some sig_size |} in
            if negb (hash_size_matches hash_nid hash_size) then Returns fail
            else
              match ECDSA_do_sign hash (hash_size mod 2 ^ 32) ec_key with
              | None => Returns fail
              | Some ecdsa_sig =>
                  let '(bn_r, bn_s) := ECDSA_SIG_get0 ecdsa_sig in
                  let r_size := BN_num_bytes bn_r in
                  let s_size := BN_num_bytes bn_s in
                  if (r_size <=? 0) || (s_size <=? 0) then Returns fail
                  else
                    ASSERT assert_enabled
                      ((r_size <=? half_size) && (s_size <=? half_size)) ;;;
                    let sig :=
                      store_bytes sig (0 + half_size - r_size)
                        (BN_bn2bin bn_r) in
                    let sig :=
                      store_bytes sig (half_size + half_size - s_size)
                        (BN_bn2bin bn_s) in
                    Returns {| ret_val := TRUE; buffer_out := Some sig;
                               size_out := Some sig_size |}
              end
      end
  | _, _, _ => Returns unchanged
  end.

End Wrappers.

End Ec.

(** ** unit_test/test_size/cryptlib_dummy/cipher/aead_chacha20_poly1305.c *)

Module AeadDummy.
Import Base Debug.

(** aead_chacha20_poly1305_encrypt: no argument is read. *)
Definition aead_chacha20_poly1305_encrypt (assert_enabled : bool)
  (key : option (list Z)) (key_size : Z)
  (iv : option (list Z)) (iv_size : Z)
  (a_data : option (list Z)) (a_data_size : Z)
  (data_in : option (list Z)) (data_in_size : Z)
  (tag_out : option (list Z)) (tag_size : Z)
  (data_out : option (list Z)) (data_out_size : option Z)
  : outcome boolean :=
  ASSERT assert_enabled FALSE ;;;
  Returns FALSE.

(** aead_chacha20_poly1305_decrypt: no argument is read. *)
Definition aead_chacha20_poly1305_decrypt (assert_enabled : bool)
  (key : option (list Z)) (key_size : Z)
  (iv : option (list Z)) (iv_size : Z)
  (a_data : option (list Z)) (a_data_size : Z)
  (data_in : option (list Z)) (data_in_size : Z)
  (tag : option (list Z)) (tag_size : Z)
  (data_out : option (list Z)) (data_out_size : option Z)
  : outcome boolean :=
  ASSERT assert_enabled FALSE ;;;
  Returns FALSE.

End AeadDummy.

(** ** os_stub/cryptlib_mbedtls/hash/sha512.c *)

Module Sha512.
Import Base.

(** The mbedTLS functions behind the four wrappers; mbedTLS is not part of
    the repository, so they are an interface.  Each returns its [int]
    status first. *)
Class MbedTLS : Type := {
  mbedtls_sha512_context : Type;
  mbedtls_sha512_update_ret :
    mbedtls_sha512_context -> option (list Z) -> Z -> Z * mbedtls_sha512_context;
  (** data, size, the output buffer, is384: the status and the buffer *)
  mbedtls_sha512_ret :
    option (list Z) -> Z -> list Z -> Z -> Z * list Z
}.

(** A call into mbedTLS, with the data pointer and the size it was given. *)
Inductive backend_call : Type :=
| Call_sha512_update_ret (data : option (list Z)) (ilen : Z)
| Call_sha512_ret (data : option (list Z)) (ilen : Z) (is384 : Z).

(** What a wrapper leaves behind: the return value, the object behind its
    in/out or out pointer, and the calls it made into mbedTLS, in order. *)
Record wrapper_result (A : Type) : Type := {
  ret_val : boolean;
  object_out : option A;
  backend_calls : list backend_call
}.

Arguments ret_val {A} _.
Arguments object_out {A} _.
Arguments backend_calls {A} _.

Section Wrappers.
Context {mbed : MbedTLS}.

(** The result of a wrapper that turns its arguments away. *)
Definition rejected {A : Type} (object : option A) : wrapper_result A :=
  {| ret_val := FALSE; object_out := object; backend_calls := [] |}.

(** sha384_update. *)
Definition sha384_update (sha384_context : option mbedtls_sha512_context)
  (data : option (list Z)) (data_size : Z)
  : wrapper_result mbedtls_sha512_context :=
  match sha384_context with
  | None => rejected sha384_context
  | Some ctx =>
      if is_null data && negb (data_size =? 0) then rejected sha384_context
      else if data_size >? INT_MAX then rejected sha384_context
      else
        let '(ret, ctx) := mbedtls_sha512_update_ret ctx data data_size in
        {| ret_val := if negb (ret =? 0) then FALSE else TRUE;
           object_out := Some ctx;
           backend_calls := [Call_sha512_update_ret data data_size] |}
  end.

(** sha384_hash_all: is384 = TRUE. *)
Definition sha384_hash_all (data : option (list Z)) (data_size : Z)
  (hash_value : option (list Z)) : wrapper_result (list Z) :=
  match hash_value with
  | None => rejected hash_value
  | Some out =>
      if is_null data && negb (data_size =? 0) then rejected hash_value
      else if data_size >? INT_MAX then rejected hash_value
      else
        let '(ret, out) := mbedtls_sha512_ret data data_size out 1 in
        {| ret_val := if negb (ret =? 0) then FALSE else TRUE;
           object_out := Some out;
           backend_calls := [Call_sha512_ret data data_size 1] |}
  end.

(** sha512_update. *)
Definition sha512_update (sha512_context : option mbedtls_sha512_context)
  (data : option (list Z)) (data_size : Z)
  : wrapper_result mbedtls_sha512_context :=
  match sha512_context with
  | None => rejected sha512_context
  | Some ctx =>
      if is_null data && negb (data_size =? 0) then rejected sha512_context
      else if data_size >? INT_MAX then rejected sha512_context
      else
        let '(ret, ctx) := mbedtls_sha512_update_ret ctx data data_size in
        {| ret_val := if negb (ret =? 0) then FALSE else TRUE;
           object_out := Some ctx;
           backend_calls := [Call_sha512_update_ret data data_size] |}
  end.

(** sha512_hash_all: is384 = FALSE. *)
Definition sha512_hash_all (data : option (list Z)) (data_size : Z)
  (hash_value : option (list Z)) : wrapper_result (list Z) :=
  match hash_value with
  | None => rejected hash_value
  | Some out =>
      if is_null data && negb (data_size =? 0) then rejected hash_value
      else if data_size >? INT_MAX then rejected hash_value
      else
        let '(ret, out) := mbedtls_sha512_ret data data_size out 0 in
        {| ret_val := if negb (ret =? 0) then FALSE else TRUE;
           object_out := Some out;
           backend_calls := [Call_sha512_ret data data_size 0] |}
  end.

(** A backend call that would read through a NULL data pointer: the pointer
    is NULL and the size is not zero. *)
Definition reads_null (c : backend_call) : bool :=
  match c with
  | Call_sha512_update_ret None ilen => negb (ilen =? 0)
  | Call_sha512_ret None ilen _ => negb (ilen =? 0)
  | _ => false
  end.

End Wrappers.

(** The data arguments that the two checks shared by the four wrappers turn
    away: [data == NULL && data_size != 0], and [data_size > INT_MAX]. *)
Definition bad_data (data : option (list Z)) (data_size : Z) : Prop :=
  (data = None /\ data_size <> 0) \/ data_size > INT_MAX.

End Sha512.

(** ** Concrete stand-ins for the external libraries, used to run the
    wrappers on examples *)

Module Examples.
Import Base Ec Sha512.

(** An OpenSSL in which a key is its curve identifier, every allocation
    succeeds, key generation returns [keygen_status] and every coordinate
    is the one-byte number 1. *)
Definition openssl_stub (keygen_status : Z) : OpenSSL :=
  {| EC_KEY := Z;
     EC_POINT := unit;
     BIGNUM := Z;
     ECDSA_SIG := unit;
     EC_KEY_curve_name := fun k => k;
     EC_KEY_generate_key := fun k => (keygen_status, k);
     EC_KEY_get0_public_key := fun _ => Some tt;
     BN_new := Some 0;
     EC_POINT_get_affine_coordinates := fun _ _ _ _ => (1, 1, 1);
     BN_num_bytes := fun _ => 1;
     BN_bn2bin := fun b => [b];
     ECDSA_do_sign := fun _ _ _ => Some tt;
     ECDSA_SIG_get0 := fun _ => (1, 1) |}.

(** An mbedTLS whose context counts the bytes fed and whose one-shot hash
    leaves the buffer as it is; both always succeed. *)
Definition mbedtls_stub : MbedTLS :=
  {| mbedtls_sha512_context := Z;
     mbedtls_sha512_update_ret := fun ctx _ n => (0, ctx + n);
     mbedtls_sha512_ret := fun _ _ out _ => (0, out) |}.

(** A responder context in response state [st] with current token [tok]:
    the last request is a four-byte GET_MEASUREMENTS in a six-byte buffer and
    the cache is empty. *)
Definition responder_context (st : Responder.spdm_response_state_t) (tok : Z)
  : Responder.spdm_context_t :=
  {| Responder.response_state := st;
     Responder.connection_state := Responder.SPDM_CONNECTION_STATE_AUTHENTICATED;
     Responder.last_spdm_request_size := 4;
     Responder.last_spdm_request := [0x11; 0xE0; 0; 0; 7; 7];
     Responder.cache_spdm_request_size := 0;
     Responder.cache_spdm_request := [0; 0; 0; 0; 0; 0];
     Responder.error_data :=
       {| Responder.rd_exponent := 0; Responder.request_code := 0;
          Responder.token := 0; Responder.rd_tm := 0 |};
     Responder.current_token := tok |}.

(** A responder that answers with version 1.1 headers. *)
Definition version_11 (c : Responder.spdm_context_t) : Z :=
  Spdm.SPDM_MESSAGE_VERSION_11.

End Examples.

(** ** ec.c: the wrappers that take a key or a signature in *)

Module EcInput.
Import Base Debug Mem Ec.

(** The further OpenSSL functions these wrappers call, over the types of
    [OpenSSL]. *)
Class OpenSSLInput {ossl : OpenSSL} : Type := {
  EC_GROUP : Type;
  EC_KEY_new : option EC_KEY;
  EC_GROUP_new_by_curve_name : Z -> option EC_GROUP;
  (** EC_KEY_set_group: the status and the key after the call *)
  EC_KEY_set_group : EC_KEY -> EC_GROUP -> Z * EC_KEY;
  (** BN_bin2bn (s, len, NULL) on the [len] bytes at [s] *)
  BN_bin2bn : list Z -> option BIGNUM;
  (** EC_POINT_new on the key's group *)
  EC_POINT_new : EC_KEY -> option EC_POINT;
  (** EC_POINT_set_affine_coordinates on the key's group: the status and
      the point after the call *)
  EC_POINT_set_affine_coordinates :
    EC_KEY -> EC_POINT -> BIGNUM -> BIGNUM -> Z * EC_POINT;
  (** EC_KEY_set_public_key: the status and the key after the call *)
  EC_KEY_set_public_key : EC_KEY -> EC_POINT -> Z * EC_KEY;
  EC_KEY_check_key : EC_KEY -> Z;
  (** ECDH_compute_key (out, outlen, point, key, NULL): the [int] it
      returns and the output buffer after the call *)
  ECDH_compute_key : list Z -> Z -> EC_POINT -> EC_KEY -> Z * list Z;
  ECDSA_SIG_new : option ECDSA_SIG;
  (** ECDSA_SIG_set0: the signature object holding r and s *)
  ECDSA_SIG_set0 : ECDSA_SIG -> BIGNUM -> BIGNUM -> ECDSA_SIG;
  ECDSA_do_verify : list Z -> Z -> ECDSA_SIG -> EC_KEY -> Z
}.

(** Curve identifiers of cryptlib.h, which is not among the sources. *)
Definition CRYPTO_NID_SECP256R1 : Z := 0x0204.
Definition CRYPTO_NID_SECP384R1 : Z := 0x0205.
Definition CRYPTO_NID_SECP521R1 : Z := 0x0206.

(** The [len] bytes of [buf] that start at [off]. *)
Definition load_bytes (buf : list Z) (off len : Z) : list Z :=
  firstn (Z.to_nat len) (skipn (Z.to_nat off) buf).

(** Conversion to [uint32]. *)
Definition to_uint32 (z : Z) : Z := z mod 2 ^ 32.

(** The switch of ec_new_by_nid: the OpenSSL identifier of the curve, or
    [None] in the default case. *)
Definition openssl_nid_of (nid : Z) : option Z :=
  if nid =? CRYPTO_NID_SECP256R1 then Some NID_X9_62_prime256v1
  else if nid =? CRYPTO_NID_SECP384R1 then Some NID_secp384r1
  else if nid =? CRYPTO_NID_SECP521R1 then Some NID_secp521r1
  else None.

Section Wrappers.
Context {ossl : OpenSSL} {ossl_in : OpenSSLInput}.

(** ec_new_by_nid: the new context, or [None] for NULL. *)
Definition ec_new_by_nid (nid : Z) : option EC_KEY :=
  match EC_KEY_new with
  | None => None
  | Some ec_key =>
      match openssl_nid_of nid with
      | None => None
      | Some openssl_nid =>
          match EC_GROUP_new_by_curve_name openssl_nid with
          | None => None
          | Some ec_group =>
              let '(st, ec_key) := EC_KEY_set_group ec_key ec_group in
              if to_uint8 st =? 0 then None else Some ec_key
          end
      end
  end.

(** The part ec_set_pub_key and ec_compute_key share, from the two
    BN_bin2bn calls to the call of EC_POINT_set_affine_coordinates: the
    point holding the coordinates read from the two halves of [public_key],
    or [None] where the source goes to [done] with FALSE. *)
Definition point_of_public (ec_key : EC_KEY) (half_size : Z)
  (public_key : list Z) : option EC_POINT :=
  match BN_bin2bn (load_bytes public_key 0 (to_uint32 half_size)),
        BN_bin2bn (load_bytes public_key half_size (to_uint32 half_size)) with
  | Some bn_x, Some bn_y =>
      match EC_POINT_new ec_key with
      | None => None
      | Some ec_point =>
          let '(st, ec_point) :=
            EC_POINT_set_affine_coordinates ec_key ec_point bn_x bn_y in
          if to_uint8 st =? 0 then None else Some ec_point
      end
  | _, _ => None
  end.

(** ec_set_pub_key: the return value and the EC context after the call. *)
Definition ec_set_pub_key (ec_context : option EC_KEY)
  (public_key : option (list Z)) (public_key_size : Z)
  : boolean * option EC_KEY :=
  match ec_context, public_key with
  | Some ec_key, Some pub =>
      match half_size_of_nid (EC_KEY_curve_name ec_key) with
      | None => (FALSE, ec_context)
      | Some half_size =>
          if negb (public_key_size =? half_size * 2) then (FALSE, ec_context)
          else
            match point_of_public ec_key half_size pub with
            | None => (FALSE, ec_context)
            | Some ec_point =>
                let '(st, ec_key) := EC_KEY_set_public_key ec_key ec_point in
                if to_uint8 st =? 0 then (FALSE, Some ec_key)
                else (TRUE, Some ec_key)
            end
      end
  | _, _ => (FALSE, ec_context)
  end.

(** ec_check_key. *)
Definition ec_check_key (ec_context : option EC_KEY) : boolean :=
  match ec_context with
  | None => FALSE
  | Some ec_key =>
      if to_uint8 (EC_KEY_check_key ec_key) =? 0 then FALSE else TRUE
  end.


(** ecdsa_verify. *)
Definition ecdsa_verify (ec_context : option EC_KEY) (hash_nid : Z)
  (message_hash : option (list Z)) (hash_size : Z)
  (signature : option (list Z)) (sig_size : Z) : boolean :=
  match ec_context, message_hash, signature with
  | Some ec_key, Some hash, Some sig =>
      if (sig_size >? INT_MAX) || (sig_size =? 0) then FALSE
      else
        match half_size_of_nid (EC_KEY_curve_name ec_key) with
        | None => FALSE
        | Some half_size =>
            if negb (sig_size =? to_uintn (half_size * 2)) then FALSE
            else if negb (hash_size_matches hash_nid hash_size) then FALSE
            else
              match ECDSA_SIG_new with
              | None => FALSE
              | Some ecdsa_sig =>
                  match BN_bin2bn (load_bytes sig 0 (to_uint32 half_size)),
                        BN_bin2bn
                          (load_bytes sig half_size (to_uint32 half_size)) with
                  | Some bn_r, Some bn_s =>
                      let ecdsa_sig := ECDSA_SIG_set0 ecdsa_sig bn_r bn_s in
                      let result :=
                        ECDSA_do_verify hash (to_uint32 hash_size)
                          ecdsa_sig ec_key in
                      result =? 1
                  | _, _ => FALSE
                  end
              end
        end
  | _, _, _ => FALSE
  end.

End Wrappers.

End EcInput.

(** ** sha512.c: init, duplicate and final *)

Module Sha512Lifecycle.
Import Base Sha512.

(** The further mbedTLS functions these wrappers call.  A function that
    writes through a context pointer returns the context after the call. *)
Class MbedTLSLifecycle {mbed : MbedTLS} : Type := {
  mbedtls_sha512_init : mbedtls_sha512_context -> mbedtls_sha512_context;
  (** context, is384: the status and the context *)
  mbedtls_sha512_starts_ret :
    mbedtls_sha512_context -> Z -> Z * mbedtls_sha512_context;
  (** destination, source: the destination after the call *)
  mbedtls_sha512_clone :
    mbedtls_sha512_context -> mbedtls_sha512_context -> mbedtls_sha512_context;
  (** context, output buffer: the status, the context and the buffer *)
  mbedtls_sha512_finish_ret :
    mbedtls_sha512_context -> list Z
    -> Z * mbedtls_sha512_context * list Z;
  mbedtls_sha512_free : mbedtls_sha512_context -> mbedtls_sha512_context
}.

(** A call into mbedTLS made by init, duplicate or final. *)
Inductive lifecycle_call : Set :=
| Call_sha512_init
| Call_sha512_starts_ret (is384 : Z)
| Call_sha512_clone
| Call_sha512_finish_ret
| Call_sha512_free.

(** What sha384_final and sha512_final leave behind: the return value, the
    context, the digest buffer and the calls made into mbedTLS, in order. *)
Record final_result {mbed : MbedTLS} : Type := {
  final_ret : boolean;
  final_context : option mbedtls_sha512_context;
  final_hash_value : option (list Z);
  final_calls : list lifecycle_call
}.

Section Wrappers.
Context {mbed : MbedTLS} {mbed_life : MbedTLSLifecycle}.

(** sha384_init: the return value, the context and the calls made. *)
Definition sha384_init (sha384_context : option mbedtls_sha512_context)
  : boolean * option mbedtls_sha512_context * list lifecycle_call :=
  match sha384_context with
  | None => (FALSE, sha384_context, [])
  | Some ctx =>
      let ctx := mbedtls_sha512_init ctx in
      let '(ret, ctx) := mbedtls_sha512_starts_ret ctx 1 in
      (if negb (ret =? 0) then FALSE else TRUE, Some ctx,
       [Call_sha512_init; Call_sha512_starts_ret 1])
  end.

(** sha384_duplicate: the return value, the new context and the calls
    made. *)
Definition sha384_duplicate (sha384_context : option mbedtls_sha512_context)
  (new_sha384_context : option mbedtls_sha512_context)
  : boolean * option mbedtls_sha512_context * list lifecycle_call :=
  match sha384_context, new_sha384_context with
  | Some src, Some dst =>
      (TRUE, Some (mbedtls_sha512_clone dst src), [Call_sha512_clone])
  | _, _ => (FALSE, new_sha384_context, [])
  end.

(** sha384_final. *)
Definition sha384_final (sha384_context : option mbedtls_sha512_context)
  (hash_value : option (list Z)) : final_result :=
  match sha384_context, hash_value with
  | Some ctx, Some out =>
      let '(ret, ctx, out) := mbedtls_sha512_finish_ret ctx out in
      let ctx := mbedtls_sha512_free ctx in
      {| final_ret := if negb (ret =? 0) then FALSE else TRUE;
         final_context := Some ctx;
         final_hash_value := Some out;
         final_calls := [Call_sha512_finish_ret; Call_sha512_free] |}
  | _, _ =>
      {| final_ret := FALSE; final_context := sha384_context;
         final_hash_value := hash_value; final_calls := [] |}
  end.

(** sha512_init. *)
Definition sha512_init (sha512_context : option mbedtls_sha512_context)
  : boolean * option mbedtls_sha512_context * list lifecycle_call :=
  match sha512_context with
  | None => (FALSE, sha512_context, [])
  | Some ctx =>
      let ctx := mbedtls_sha512_init ctx in
      let '(ret, ctx) := mbedtls_sha512_starts_ret ctx 0 in
      (if negb (ret =? 0) then FALSE else TRUE, Some ctx,
       [Call_sha512_init; Call_sha512_starts_ret 0])
  end.

(** sha512_duplicate. *)
Definition sha512_duplicate (sha512_context : option mbedtls_sha512_context)
  (new_sha512_context : option mbedtls_sha512_context)
  : boolean * option mbedtls_sha512_context * list lifecycle_call :=
  match sha512_context, new_sha512_context with
  | Some src, Some dst =>
      (TRUE, Some (mbedtls_sha512_clone dst src), [Call_sha512_clone])
  | _, _ => (FALSE, new_sha512_context, [])
  end.

(** sha512_final. *)
Definition sha512_final (sha512_context : option mbedtls_sha512_context)
  (hash_value : option (list Z)) : final_result :=
  match sha512_context, hash_value with
  | Some ctx, Some out =>
      let '(ret, ctx, out) := mbedtls_sha512_finish_ret ctx out in
      let ctx := mbedtls_sha512_free ctx in
      {| final_ret := if negb (ret =? 0) then FALSE else TRUE;
         final_context := Some ctx;
         final_hash_value := Some out;
         final_calls := [Call_sha512_finish_ret; Call_sha512_free] |}
  | _, _ =>
      {| final_ret := FALSE; final_context := sha512_context;
         final_hash_value := hash_value; final_calls := [] |}
  end.

End Wrappers.

End Sha512Lifecycle.

(** ** A responder that calls the handler once per request *)

Module ResponderRuns.
Import Base Responder.

(** The four components of what the handler returns. *)
Definition status_of (r : return_status * spdm_context_t * Z * list Z)
  : return_status := fst (fst (fst r)).
Definition context_of (r : return_status * spdm_context_t * Z * list Z)
  : spdm_context_t := snd (fst (fst r)).
Definition response_size_of (r : return_status * spdm_context_t * Z * list Z)
  : Z := snd (fst r).
Definition response_of (r : return_status * spdm_context_t * Z * list Z)
  : list Z := snd r.

Section Runs.
Variable response_version : spdm_context_t -> Z.

(** The handler called for each opcode of [req_codes] in turn, every call
    on the context the call before it left: the context after the last call
    and the responses, in order. *)
Fixpoint handle_requests (c : spdm_context_t) (req_codes : list Z)
  (response_size : Z) (response : list Z)
  : spdm_context_t * list (list Z) :=
  match req_codes with
  | [] => (c, [])
  | req_code :: rest =>
      let '(_, c, _, sent) :=
        spdm_responder_handle_response_state response_version c req_code
          response_size response in
      let '(c, more) := handle_requests c rest response_size response in
      (c, sent :: more)
  end.

End Runs.

End ResponderRuns.

(** ** Stand-ins for the further external functions *)

Module ExamplesInput.
Import Base Ec EcInput Sha512 Sha512Lifecycle Examples.

(** Over [openssl_stub 1]: a group is its curve identifier, a number read
    from bytes is their last byte, every allocation succeeds, ECDH leaves
    [outlen] bytes and verification accepts. *)
Definition openssl_input_stub : OpenSSLInput (ossl := openssl_stub 1) :=
  @Build_OpenSSLInput (openssl_stub 1)
    Z                                  (* EC_GROUP *)
    (Some NID_X9_62_prime256v1)        (* EC_KEY_new *)
    (fun n => Some n)                  (* EC_GROUP_new_by_curve_name *)
    (fun _ g => (1, g))                (* EC_KEY_set_group *)
    (fun bytes => Some (last bytes 0)) (* BN_bin2bn *)
    (fun _ => Some tt)                 (* EC_POINT_new *)
    (fun _ p _ _ => (1, p))            (* EC_POINT_set_affine_coordinates *)
    (fun k _ => (1, k))                (* EC_KEY_set_public_key *)
    (fun _ => 1)                       (* EC_KEY_check_key *)
    (fun out outlen _ _ => (outlen, out)) (* ECDH_compute_key *)
    (Some tt)                          (* ECDSA_SIG_new *)
    (fun sig _ _ => sig)               (* ECDSA_SIG_set0 *)
    (fun _ _ _ _ => 1).                (* ECDSA_do_verify *)

(** Over [mbedtls_stub]: init and free reset the byte count, clone copies
    it, finish fails with -1 on a context that has seen no byte. *)
Definition mbedtls_lifecycle_stub : MbedTLSLifecycle (mbed := mbedtls_stub) :=
  @Build_MbedTLSLifecycle mbedtls_stub
    (fun _ => 0)                       (* mbedtls_sha512_init *)
    (fun ctx _ => (0, ctx))            (* mbedtls_sha512_starts_ret *)
    (fun _ src => src)                 (* mbedtls_sha512_clone *)
    (fun ctx out => (if ctx =? 0 then -1 else 0, ctx, out))
                                       (* mbedtls_sha512_finish_ret *)
    (fun _ => 0).                      (* mbedtls_sha512_free *)

End ExamplesInput.

(* ===================================================================== *)
(** * Theorems *)
(* ===================================================================== *)

(** ** Memory primitives *)

Section MemFacts.
Import Mem.

Lemma store_bytes_at_0 (bytes buf : list Z) :
  store_bytes buf 0 bytes = bytes ++ skipn (length bytes) buf.
Proof. reflexivity. Qed.

Lemma store_bytes_length (buf bytes : list Z) (off : Z) :
  (Z.to_nat off + length bytes <= length buf)%nat ->
  length (store_bytes buf off bytes) = length buf.
Proof.
  intros Hfit. unfold store_bytes.
  rewrite !length_app, length_firstn, length_skipn. lia.
Qed.

(** Storing after a prefix of known length leaves the prefix alone. *)
Lemma store_bytes_after_prefix (pre rest bytes : list Z) (off : Z) :
  Z.to_nat off = length pre ->
  store_bytes (pre ++ rest) off bytes
  = pre ++ bytes ++ skipn (length bytes) rest.
Proof.
  intros Hoff. unfold store_bytes. rewrite Hoff.
  rewrite firstn_app, firstn_all, Nat.sub_diag, firstn_O, app_nil_r.
  rewrite skipn_app, skipn_all2 by lia.
  replace (length pre + length bytes - length pre)%nat
    with (length bytes) by lia.
  reflexivity.
Qed.

End MemFacts.

(** ** encap_error.c *)

Section EncapErrorFacts.
Import Base Debug Mem Spdm EncapError.

(** The four stores write the header over the first four bytes and keep
    the rest of the buffer. *)
Lemma store_error_header_bytes (response : list Z) (error_code error_data : Z) :
  (4 <= length response)%nat ->
  store_error_header response error_code error_data
  = [SPDM_MESSAGE_VERSION_11; SPDM_ERROR; error_code; error_data]
      ++ skipn 4 response.
Proof.
  intros Hlen.
  destruct response as [|b0 [|b1 [|b2 [|b3 rest]]]];
    simpl in Hlen; try lia.
  reflexivity.
Qed.

(** A true ASSERT is passed whether or not ASSERT is compiled in. *)
Lemma ASSERT_true (enabled : bool) : ASSERT enabled true = Returns tt.
Proof. unfold ASSERT. now rewrite andb_false_r. Qed.

Lemma to_uintn_small (z : Z) : 0 <= z <= MAX_UINTN -> to_uintn z = z.
Proof. unfold to_uintn, MAX_UINTN. intros H. apply Z.mod_small. lia. Qed.

Lemma encap_error_response_ok {C : Type} (dbg : bool) (context : C)
  (error_code error_data response_size : Z) (response : list Z) :
  sizeof_spdm_error_response_t <= response_size ->
  response_size <= Z.of_nat (length response) ->
  spdm_generate_encap_error_response dbg context error_code error_data
    response_size response
  = Returns (RETURN_SUCCESS, sizeof_spdm_error_response_t,
             [SPDM_MESSAGE_VERSION_11; SPDM_ERROR; error_code; error_data]
               ++ skipn 4 response).
Proof.
  intros Hsize Hcap. unfold spdm_generate_encap_error_response.
  apply Z.leb_le in Hsize as Hb. rewrite Hb, ASSERT_true. cbn [bind].
  rewrite store_error_header_bytes; [reflexivity|].
  unfold sizeof_spdm_error_response_t in Hsize. lia.
Qed.

Lemma encap_extended_error_response_ok {C : Type} (dbg : bool) (context : C)
  (error_code error_data extended_error_data_size : Z)
  (extended_error_data : list Z) (response_size : Z) (response : list Z) :
  0 <= extended_error_data_size <= Z.of_nat (length extended_error_data) ->
  sizeof_spdm_error_response_t + extended_error_data_size <= response_size ->
  response_size <= MAX_UINTN ->
  response_size <= Z.of_nat (length response) ->
  spdm_generate_encap_extended_error_response dbg context error_code
    error_data extended_error_data_size extended_error_data
    response_size response
  = Returns (RETURN_SUCCESS,
             sizeof_spdm_error_response_t + extended_error_data_size,
             [SPDM_MESSAGE_VERSION_11; SPDM_ERROR; error_code; error_data]
               ++ firstn (Z.to_nat extended_error_data_size) extended_error_data
               ++ skipn (4 + Z.to_nat extended_error_data_size) response).
Proof.
  intros Hext Hsize Hmax Hcap.
  unfold spdm_generate_encap_extended_error_response.
  unfold sizeof_spdm_error_response_t in *.
  rewrite to_uintn_small by lia.
  apply Z.leb_le in Hsize as Hb. rewrite Hb, ASSERT_true. cbn [bind].
  rewrite store_error_header_bytes by lia.
  unfold copy_mem.
  rewrite (store_bytes_after_prefix
             [SPDM_MESSAGE_VERSION_11; SPDM_ERROR; error_code; error_data])
    by reflexivity.
  rewrite length_firstn, Nat.min_l by lia.
  rewrite skipn_skipn.
  replace (Z.to_nat extended_error_data_size + 4)%nat
    with (4 + Z.to_nat extended_error_data_size)%nat by lia.
  reflexivity.
Qed.

(** Neither function has a path to another status: a call that returns
    returns RETURN_SUCCESS and the size computed from the arguments. *)
Lemma encap_error_response_status {C : Type} (dbg : bool) (context : C)
  (error_code error_data response_size : Z) (response : list Z)
  (r : return_status * Z * list Z) :
  spdm_generate_encap_error_response dbg context error_code error_data
    response_size response = Returns r ->
  fst (fst r) = RETURN_SUCCESS /\ snd (fst r) = sizeof_spdm_error_response_t.
Proof.
  unfold spdm_generate_encap_error_response.
  destruct (ASSERT dbg _); cbn [bind]; [|discriminate].
  intros [= <-]. split; reflexivity.
Qed.

Lemma encap_extended_error_response_status {C : Type} (dbg : bool)
  (context : C) (error_code error_data extended_error_data_size : Z)
  (extended_error_data : list Z) (response_size : Z) (response : list Z)
  (r : return_status * Z * list Z) :
  spdm_generate_encap_extended_error_response dbg context error_code
    error_data extended_error_data_size extended_error_data
    response_size response = Returns r ->
  fst (fst r) = RETURN_SUCCESS
  /\ snd (fst r)
     = to_uintn (sizeof_spdm_error_response_t + extended_error_data_size).
Proof.
  unfold spdm_generate_encap_extended_error_response.
  destruct (ASSERT dbg _); cbn [bind]; [|discriminate].
  intros [= <-]. split; reflexivity.
Qed.

(** C8.  For every error code and error data byte, and whether or not
    ASSERT is compiled in, spdm_generate_encap_error_response called with a
    buffer of at least four bytes returns RETURN_SUCCESS, sets the response
    size to the size of the header and leaves the header
    {SPDM 1.1, ERROR, error_code, error_data} in the first four bytes of the
    buffer; spdm_generate_encap_extended_error_response, called with a buffer
    that holds header and extended data, also returns RETURN_SUCCESS, sets the
    response size to the header size plus extended_error_data_size and leaves
    the extended error data right after the same header.  The bytes of the
    buffer behind the message are kept.  On any arguments at all, a call of
    either function that returns returns RETURN_SUCCESS. *)
Theorem encap_error_responses_header_and_size :
  (forall (C : Type) (dbg : bool) (context : C)
          (error_code error_data response_size : Z) (response : list Z),
      sizeof_spdm_error_response_t <= response_size ->
      response_size <= Z.of_nat (length response) ->
      spdm_generate_encap_error_response dbg context error_code error_data
        response_size response
      = Returns (RETURN_SUCCESS, sizeof_spdm_error_response_t,
                 [SPDM_MESSAGE_VERSION_11; SPDM_ERROR; error_code; error_data]
                   ++ skipn 4 response))
  /\
  (forall (C : Type) (dbg : bool) (context : C)
          (error_code error_data extended_error_data_size : Z)
          (extended_error_data : list Z)
          (response_size : Z) (response : list Z),
      0 <= extended_error_data_size
           <= Z.of_nat (length extended_error_data) ->
      sizeof_spdm_error_response_t + extended_error_data_size
        <= response_size ->
      response_size <= MAX_UINTN ->
      response_size <= Z.of_nat (length response) ->
      spdm_generate_encap_extended_error_response dbg context error_code
        error_data extended_error_data_size extended_error_data
        response_size response
      = Returns (RETURN_SUCCESS,
                 sizeof_spdm_error_response_t + extended_error_data_size,
                 [SPDM_MESSAGE_VERSION_11; SPDM_ERROR; error_code; error_data]
                   ++ firstn (Z.to_nat extended_error_data_size)
                        extended_error_data
                   ++ skipn (4 + Z.to_nat extended_error_data_size) response))
  /\
  (forall (C : Type) (dbg : bool) (context : C)
          (error_code error_data extended_error_data_size : Z)
          (extended_error_data : list Z)
          (response_size : Z) (response : list Z)
          (r : return_status * Z * list Z),
      (spdm_generate_encap_error_response dbg context error_code error_data
         response_size response = Returns r
       \/ spdm_generate_encap_extended_error_response dbg context error_code
            error_data extended_error_data_size extended_error_data
            response_size response = Returns r) ->
      fst (fst r) = RETURN_SUCCESS).
Proof.
  split; [|split].
  - intros. now apply encap_error_response_ok.
  - intros. now apply encap_extended_error_response_ok.
  - intros C dbg context error_code error_data extended_error_data_size
           extended_error_data response_size response r [Hrun | Hrun].
    + now apply encap_error_response_status in Hrun.
    + now apply encap_extended_error_response_status in Hrun.
Qed.

(** The theorem at work: an ERROR(0x42) with two bytes of extended data in
    an eight-byte buffer, and the plain ERROR in the same buffer. *)
Lemma encap_error_responses_witness :
  spdm_generate_encap_error_response true tt 0x42 0 8 [9; 9; 9; 9; 9; 9; 9; 9]
  = Returns (RETURN_SUCCESS, 4, [0x11; 0x7F; 0x42; 0; 9; 9; 9; 9])
  /\
  spdm_generate_encap_extended_error_response true tt 0x42 0 2 [5; 6; 7]
    8 [9; 9; 9; 9; 9; 9; 9; 9]
  = Returns (RETURN_SUCCESS, 6, [0x11; 0x7F; 0x42; 0; 5; 6; 9; 9]).
Proof.
  destruct encap_error_responses_header_and_size as (Hplain & Hext & _).
  split.
  - apply (Hplain unit true tt 0x42 0 8 [9; 9; 9; 9; 9; 9; 9; 9]);
      vm_compute; discriminate.
  - apply (Hext unit true tt 0x42 0 2 [5; 6; 7] 8 [9; 9; 9; 9; 9; 9; 9; 9]);
      vm_compute; try discriminate; split; discriminate.
Defined.

End EncapErrorFacts.

(** ** libspdm_rsp_handle_response_state.c *)

Section ResponderFacts.
Import Base Mem Spdm Responder.

Variable response_version : spdm_context_t -> Z.

Local Abbreviation handle :=
  (spdm_responder_handle_response_state response_version).

(** The header of the ERROR message the responder builds for [c]. *)
Local Abbreviation error_header c code :=
  [response_version c; SPDM_ERROR; code; 0].

Lemma to_uint8_range (z : Z) : 0 <= to_uint8 z < 256.
Proof. unfold to_uint8. apply Z.mod_pos_bound. lia. Qed.

Lemma to_uint8_small (z : Z) : 0 <= z < 256 -> to_uint8 z = z.
Proof. unfold to_uint8. intros H. apply Z.mod_small. lia. Qed.

(** The copy into the cache puts the request in front and keeps the rest. *)
Lemma copy_mem_prefix (dst src : list Z) (len : Z) :
  0 <= len <= Z.of_nat (length src) ->
  firstn (Z.to_nat len) (copy_mem dst 0 src len) = firstn (Z.to_nat len) src.
Proof.
  intros Hlen. unfold copy_mem. rewrite store_bytes_at_0.
  rewrite firstn_app, length_firstn, Nat.min_l by lia.
  rewrite Nat.sub_diag, firstn_O, app_nil_r.
  apply firstn_all2. rewrite length_firstn. lia.
Qed.

(** What the NOT_READY bookkeeping leaves in each field. *)
Lemma record_not_ready_fields (c : spdm_context_t) (req_code : Z) :
  let c' := record_not_ready c req_code in
  error_data c' = {| rd_exponent := 1; request_code := req_code;
                     token := current_token c; rd_tm := 1 |}
  /\ current_token c' = to_uint8 (current_token c + 1)
  /\ cache_spdm_request_size c' = last_spdm_request_size c
  /\ cache_spdm_request c'
     = copy_mem (cache_spdm_request c) 0 (last_spdm_request c)
         (last_spdm_request_size c)
  /\ response_state c' = response_state c
  /\ connection_state c' = connection_state c
  /\ last_spdm_request c' = last_spdm_request c
  /\ last_spdm_request_size c' = last_spdm_request_size c.
Proof. cbv zeta. unfold record_not_ready. cbn. repeat split. Qed.

Lemma not_respond_if_ready (req_code : Z) :
  req_code <> SPDM_RESPOND_IF_READY ->
  negb (req_code =? SPDM_RESPOND_IF_READY) = true.
Proof. intros H. apply negb_true_iff, Z.eqb_neq, H. Qed.

(** The NOT_READY case, first branch, as one equation. *)
Lemma handle_not_ready_new_request (c : spdm_context_t)
  (req_code response_size : Z) (response : list Z) :
  response_state c = SPDM_RESPONSE_STATE_NOT_READY ->
  req_code <> SPDM_RESPOND_IF_READY ->
  handle c req_code response_size response
  = (RETURN_SUCCESS, record_not_ready c req_code, 8,
     error_header (record_not_ready c req_code)
       SPDM_ERROR_CODE_RESPONSE_NOT_READY
       ++ error_data_bytes (error_data (record_not_ready c req_code))).
Proof.
  intros Hstate Hcode. unfold spdm_responder_handle_response_state.
  rewrite Hstate, (not_respond_if_ready _ Hcode). reflexivity.
Qed.

(** C1.  In state NotReady a request whose opcode is not RESPOND_IF_READY
    makes the handler return RETURN_SUCCESS with the response
    ERROR(RESPONSE_NOT_READY) followed by the extended error data
    {rd_exponent = 1, rd_tm = 1, request_code = the opcode, token = the
    current_token before the call}; the context keeps that error data, its
    cache_spdm_request_size is last_spdm_request_size and its
    cache_spdm_request begins with the bytes of last_spdm_request, and
    current_token has advanced by one as a uint8 (by one exactly below 255,
    from 255 to 0).  No other field of the context changes. *)
Theorem not_ready_reply_caches_request_and_advances_token
  (c : spdm_context_t) (req_code response_size : Z) (response : list Z) :
  response_state c = SPDM_RESPONSE_STATE_NOT_READY ->
  req_code <> SPDM_RESPOND_IF_READY ->
  0 <= last_spdm_request_size c <= Z.of_nat (length (last_spdm_request c)) ->
  exists c' : spdm_context_t,
    let sent := {| rd_exponent := 1; request_code := req_code;
                   token := current_token c; rd_tm := 1 |} in
    handle c req_code response_size response
    = (RETURN_SUCCESS, c', 8,
       error_header c' SPDM_ERROR_CODE_RESPONSE_NOT_READY
         ++ error_data_bytes sent)
    /\ error_data c' = sent
    /\ cache_spdm_request_size c' = last_spdm_request_size c
    /\ firstn (Z.to_nat (last_spdm_request_size c)) (cache_spdm_request c')
       = firstn (Z.to_nat (last_spdm_request_size c)) (last_spdm_request c)
    /\ current_token c' = to_uint8 (current_token c + 1)
    /\ (0 <= current_token c < 255 -> current_token c' = current_token c + 1)
    /\ (current_token c = 255 -> current_token c' = 0)
    /\ response_state c' = response_state c
    /\ connection_state c' = connection_state c
    /\ last_spdm_request c' = last_spdm_request c
    /\ last_spdm_request_size c' = last_spdm_request_size c.
Proof.
  intros Hstate Hcode Hlast.
  exists (record_not_ready c req_code). cbv zeta.
  destruct (record_not_ready_fields c req_code)
    as (Herr & Htok & Hsize & Hcache & Hrs & Hcs & Hreq & Hreqsz).
  rewrite handle_not_ready_new_request by assumption.
  rewrite Herr, Htok, Hsize, Hcache.
  repeat split; try assumption.
  - now apply copy_mem_prefix.
  - intros Hsmall. apply to_uint8_small. lia.
  - intros ->. reflexivity.
Qed.

(** The context after a call of the handler. *)
Local Abbreviation context_after r := (snd (fst (fst r))).

(** The response buffer after a call of the handler. *)
Local Abbreviation response_after r := (snd r).

(** C2.  Two consecutive ERROR(RESPONSE_NOT_READY) emissions, each in
    state NotReady for an opcode other than RESPOND_IF_READY, with
    current_token untouched between them: each response carries the error
    data its call left in the context, and the token of the second is the
    token of the first plus one modulo 256. *)
Theorem consecutive_not_ready_tokens_differ_by_one
  (c1 c2 : spdm_context_t) (req_code1 req_code2 : Z)
  (response_size1 response_size2 : Z) (response1 response2 : list Z) :
  let first := handle c1 req_code1 response_size1 response1 in
  let second := handle c2 req_code2 response_size2 response2 in
  response_state c1 = SPDM_RESPONSE_STATE_NOT_READY ->
  req_code1 <> SPDM_RESPOND_IF_READY ->
  response_state c2 = SPDM_RESPONSE_STATE_NOT_READY ->
  req_code2 <> SPDM_RESPOND_IF_READY ->
  current_token c2 = current_token (context_after first) ->
  response_after first
  = error_header (context_after first) SPDM_ERROR_CODE_RESPONSE_NOT_READY
      ++ error_data_bytes (error_data (context_after first))
  /\ response_after second
     = error_header (context_after second) SPDM_ERROR_CODE_RESPONSE_NOT_READY
         ++ error_data_bytes (error_data (context_after second))
  /\ token (error_data (context_after second))
     = (token (error_data (context_after first)) + 1) mod 256.
Proof.
  intros first second Hs1 Hc1 Hs2 Hc2 Hbetween. subst first second.
  rewrite (handle_not_ready_new_request c1) in * by assumption.
  rewrite (handle_not_ready_new_request c2) by assumption.
  cbn [fst snd] in *.
  destruct (record_not_ready_fields c1 req_code1) as (Herr1 & Htok1 & _).
  destruct (record_not_ready_fields c2 req_code2) as (Herr2 & _).
  repeat split.
  rewrite Herr1, Herr2. cbn [token].
  rewrite Hbetween, Htok1. reflexivity.
Qed.

(** C3.  In state NotReady a RESPOND_IF_READY request changes nothing in
    the context (so error_data, cache_spdm_request, cache_spdm_request_size
    and current_token are as before), and the ERROR(RESPONSE_NOT_READY)
    response carries the error data that was already stored. *)
Theorem respond_if_ready_while_not_ready_keeps_context
  (c : spdm_context_t) (response_size : Z) (response : list Z) :
  response_state c = SPDM_RESPONSE_STATE_NOT_READY ->
  handle c SPDM_RESPOND_IF_READY response_size response
  = (RETURN_SUCCESS, c, 8,
     error_header c SPDM_ERROR_CODE_RESPONSE_NOT_READY
       ++ error_data_bytes (error_data c)).
Proof.
  intros Hstate. unfold spdm_responder_handle_response_state.
  rewrite Hstate, Z.eqb_refl. reflexivity.
Qed.

(** C4.  In state NeedResync, for every opcode, the handler returns
    RETURN_SUCCESS with the response ERROR(REQUEST_RESYNCH), and the context
    after the call has connection_state NotStarted and is otherwise as
    before. *)
Theorem need_resync_resets_connection_state
  (c : spdm_context_t) (req_code response_size : Z) (response : list Z) :
  response_state c = SPDM_RESPONSE_STATE_NEED_RESYNC ->
  exists c' : spdm_context_t,
    handle c req_code response_size response
    = (RETURN_SUCCESS, c', sizeof_spdm_error_response_t,
       error_header c SPDM_ERROR_CODE_REQUEST_RESYNCH)
    /\ connection_state c' = SPDM_CONNECTION_STATE_NOT_STARTED
    /\ response_state c' = response_state c
    /\ current_token c' = current_token c
    /\ error_data c' = error_data c
    /\ cache_spdm_request c' = cache_spdm_request c
    /\ cache_spdm_request_size c' = cache_spdm_request_size c
    /\ last_spdm_request c' = last_spdm_request c
    /\ last_spdm_request_size c' = last_spdm_request_size c.
Proof.
  intros Hstate.
  exists (set_connection_state c SPDM_CONNECTION_STATE_NOT_STARTED).
  split.
  - unfold spdm_responder_handle_response_state. rewrite Hstate.
    reflexivity.
  - repeat split.
Qed.

(** C5.  In state Busy, for every opcode, the handler returns
    RETURN_SUCCESS with the response ERROR(BUSY) and the context it was
    given: no field changes. *)
Theorem busy_replies_and_keeps_context
  (c : spdm_context_t) (req_code response_size : Z) (response : list Z) :
  response_state c = SPDM_RESPONSE_STATE_BUSY ->
  handle c req_code response_size response
  = (RETURN_SUCCESS, c, sizeof_spdm_error_response_t,
     error_header c SPDM_ERROR_CODE_BUSY).
Proof.
  intros Hstate. unfold spdm_responder_handle_response_state.
  now rewrite Hstate.
Qed.

(** C6.  In state ProcessingEncap the handler does not look at the opcode:
    every request it is called with, so in particular every request other
    than ENCAPSULATED_RESPONSE_ACK and related encapsulated traffic, is
    answered with ERROR(REQUEST_IN_FLIGHT); the handler returns
    RETURN_SUCCESS and the context it was given. *)
Theorem processing_encap_replies_request_in_flight
  (c : spdm_context_t) (req_code response_size : Z) (response : list Z) :
  response_state c = SPDM_RESPONSE_STATE_PROCESSING_ENCAP ->
  handle c req_code response_size response
  = (RETURN_SUCCESS, c, sizeof_spdm_error_response_t,
     error_header c SPDM_ERROR_CODE_REQUEST_IN_FLIGHT).
Proof.
  intros Hstate. unfold spdm_responder_handle_response_state.
  now rewrite Hstate.
Qed.

End ResponderFacts.

(** *** The responder theorems at concrete contexts *)

Section ResponderExamples.
Import Base Spdm Responder Examples.

Local Abbreviation handle11 :=
  (spdm_responder_handle_response_state version_11).

(** C1 at the last token: GET_MEASUREMENTS (0xE0) arrives in state NotReady
    with current_token 255; the reply carries token 255 and current_token
    wraps to 0. *)
Lemma not_ready_reply_witness :
  exists c' : spdm_context_t,
    handle11 (responder_context SPDM_RESPONSE_STATE_NOT_READY 255) 0xE0 64 []
    = (RETURN_SUCCESS, c', 8, [0x11; 0x7F; 0x42; 0; 1; 0xE0; 255; 1])
    /\ cache_spdm_request_size c' = 4
    /\ firstn 4 (cache_spdm_request c') = [0x11; 0xE0; 0; 0]
    /\ current_token c' = 0.
Proof.
  destruct (not_ready_reply_caches_request_and_advances_token version_11
              (responder_context SPDM_RESPONSE_STATE_NOT_READY 255) 0xE0 64 [])
    as (c' & Hrun & _ & Hsize & Hcache & _ & _ & Hwrap & _).
  - reflexivity.
  - discriminate.
  - vm_compute. split; discriminate.
  - exists c'. repeat split.
    + exact Hrun.
    + exact Hsize.
    + exact Hcache.
    + exact (Hwrap eq_refl).
Defined.

(** C2: tokens 7 and 8 in two consecutive replies. *)
Lemma consecutive_not_ready_tokens_witness :
  let c1 := responder_context SPDM_RESPONSE_STATE_NOT_READY 7 in
  let c2 := responder_context SPDM_RESPONSE_STATE_NOT_READY 8 in
  token (error_data (snd (fst (fst (handle11 c1 0xE0 64 []))))) = 7
  /\ token (error_data (snd (fst (fst (handle11 c2 0xE1 64 [])))))
     = (token (error_data (snd (fst (fst (handle11 c1 0xE0 64 []))))) + 1)
         mod 256.
Proof.
  split; [reflexivity|].
  apply (consecutive_not_ready_tokens_differ_by_one version_11
           (responder_context SPDM_RESPONSE_STATE_NOT_READY 7)
           (responder_context SPDM_RESPONSE_STATE_NOT_READY 8)
           0xE0 0xE1 64 64 [] []);
    first [reflexivity | discriminate].
Defined.

(** C3: RESPOND_IF_READY in state NotReady. *)
Lemma respond_if_ready_while_not_ready_witness :
  handle11 (responder_context SPDM_RESPONSE_STATE_NOT_READY 7)
    SPDM_RESPOND_IF_READY 64 []
  = (RETURN_SUCCESS, responder_context SPDM_RESPONSE_STATE_NOT_READY 7, 8,
     [0x11; 0x7F; 0x42; 0; 0; 0; 0; 0]).
Proof.
  apply (respond_if_ready_while_not_ready_keeps_context version_11
           (responder_context SPDM_RESPONSE_STATE_NOT_READY 7) 64 []).
  reflexivity.
Defined.

(** C4: GET_MEASUREMENTS in state NeedResync. *)
Lemma need_resync_witness :
  exists c' : spdm_context_t,
    handle11 (responder_context SPDM_RESPONSE_STATE_NEED_RESYNC 7) 0xE0 64 []
    = (RETURN_SUCCESS, c', 4, [0x11; 0x7F; 0x43; 0])
    /\ connection_state c' = SPDM_CONNECTION_STATE_NOT_STARTED.
Proof.
  destruct (need_resync_resets_connection_state version_11
              (responder_context SPDM_RESPONSE_STATE_NEED_RESYNC 7) 0xE0 64 []
              eq_refl)
    as (c' & Hrun & Hconn & _).
  exists c'. split; [exact Hrun | exact Hconn].
Defined.

(** C5: GET_MEASUREMENTS in state Busy. *)
Lemma busy_witness :
  handle11 (responder_context SPDM_RESPONSE_STATE_BUSY 7) 0xE0 64 []
  = (RETURN_SUCCESS, responder_context SPDM_RESPONSE_STATE_BUSY 7, 4,
     [0x11; 0x7F; 0x03; 0]).
Proof.
  apply (busy_replies_and_keeps_context version_11
           (responder_context SPDM_RESPONSE_STATE_BUSY 7) 0xE0 64 []).
  reflexivity.
Defined.

(** C6: GET_MEASUREMENTS in state ProcessingEncap. *)
Lemma processing_encap_witness :
  handle11 (responder_context SPDM_RESPONSE_STATE_PROCESSING_ENCAP 7)
    0xE0 64 []
  = (RETURN_SUCCESS, responder_context SPDM_RESPONSE_STATE_PROCESSING_ENCAP 7,
     4, [0x11; 0x7F; 0x08; 0]).
Proof.
  apply (processing_encap_replies_request_in_flight version_11
           (responder_context SPDM_RESPONSE_STATE_PROCESSING_ENCAP 7)
           0xE0 64 []).
  reflexivity.
Defined.

End ResponderExamples.

(** ** ec.c *)

Section EcFacts.
Import Base Debug Mem Ec.
Context {ossl : OpenSSL}.
Variable assert_enabled : bool.

(** The three curves of the switch and their half sizes. *)
Lemma half_size_of_nid_cases (nid half_size : Z) :
  half_size_of_nid nid = Some half_size ->
  (nid = NID_X9_62_prime256v1 /\ half_size = 32)
  \/ (nid = NID_secp384r1 /\ half_size = 48)
  \/ (nid = NID_secp521r1 /\ half_size = 66).
Proof.
  unfold half_size_of_nid.
  destruct (nid =? NID_X9_62_prime256v1) eqn:E256;
    [apply Z.eqb_eq in E256; intros [= <-]; auto|].
  destruct (nid =? NID_secp384r1) eqn:E384;
    [apply Z.eqb_eq in E384; intros [= <-]; auto|].
  destruct (nid =? NID_secp521r1) eqn:E521;
    [apply Z.eqb_eq in E521; intros [= <-]; auto|].
  discriminate.
Qed.

(** The guard [buffer == NULL && size != 0] lets through a buffer that is
    there and a NULL buffer with size 0. *)
Lemma null_guard_passes (buffer : option (list Z)) (size : Z) :
  buffer <> None \/ size = 0 ->
  is_null buffer && negb (size =? 0) = false.
Proof.
  intros [Hbuf | ->]; destruct buffer; try reflexivity.
  now elim Hbuf.
Qed.

Lemma ec_get_pub_key_too_small (ec_key : EC_KEY) (half_size size : Z)
  (public_key : option (list Z)) :
  half_size_of_nid (EC_KEY_curve_name ec_key) = Some half_size ->
  size < half_size * 2 ->
  public_key <> None \/ size = 0 ->
  ec_get_pub_key assert_enabled (Some ec_key) public_key (Some size)
  = Returns {| ret_val := FALSE; buffer_out := public_key;
               size_out := Some (half_size * 2) |}.
Proof.
  intros Hcurve Hsmall Hbuf. unfold ec_get_pub_key.
  rewrite (null_guard_passes _ _ Hbuf), Hcurve.
  apply Z.ltb_lt in Hsmall. now rewrite Hsmall.
Qed.

Lemma ec_generate_key_too_small (ec_key ec_key' : EC_KEY)
  (status half_size size : Z) (public : option (list Z)) :
  EC_KEY_generate_key ec_key = (status, ec_key') ->
  to_uint8 status <> 0 ->
  half_size_of_nid (EC_KEY_curve_name ec_key') = Some half_size ->
  size < half_size * 2 ->
  public <> None \/ size = 0 ->
  ec_generate_key assert_enabled (Some ec_key) public (Some size)
  = Returns ({| ret_val := FALSE; buffer_out := public;
                size_out := Some (half_size * 2) |}, Some ec_key').
Proof.
  intros Hgen Hok Hcurve Hsmall Hbuf. unfold ec_generate_key.
  rewrite (null_guard_passes _ _ Hbuf), Hgen.
  apply Z.eqb_neq in Hok. rewrite Hok, Hcurve.
  apply Z.ltb_lt in Hsmall. now rewrite Hsmall.
Qed.

Lemma ecdsa_sign_too_small (ec_key : EC_KEY) (half_size : Z)
  (hash_nid hash_size sig_size : Z) (message_hash signature : list Z) :
  half_size_of_nid (EC_KEY_curve_name ec_key) = Some half_size ->
  sig_size < half_size * 2 ->
  ecdsa_sign assert_enabled (Some ec_key) hash_nid (Some message_hash)
    hash_size (Some signature) sig_size
  = Returns {| ret_val := FALSE; buffer_out := Some signature;
               size_out := Some (half_size * 2) |}.
Proof.
  intros Hcurve Hsmall. unfold ecdsa_sign. rewrite Hcurve.
  assert (Hwrap : to_uintn (half_size * 2) = half_size * 2).
  { destruct (half_size_of_nid_cases _ _ Hcurve) as [[_ ->] | [[_ ->] | [_ ->]]];
      reflexivity. }
  rewrite Hwrap. apply Z.ltb_lt in Hsmall. now rewrite Hsmall.
Qed.

(** C7, as the code has it.  The three curves have half sizes 32, 48 and 66,
    so required sizes 64, 96 and 132.  For an EC context over one of them
    and a caller-supplied size below the required size:
    ec_get_pub_key returns FALSE and stores the required size behind the
    size pointer when the output buffer is not NULL or the supplied size is
    0; ec_generate_key does the same when, besides, EC_KEY_generate_key
    succeeded; ecdsa_sign returns FALSE and stores the required size in
    sig_size when message_hash and signature are not NULL.  In each case the
    output buffer is left as it was. *)
Theorem ec_too_small_buffer_reports_required_size :
  (half_size_of_nid NID_X9_62_prime256v1 = Some 32
   /\ half_size_of_nid NID_secp384r1 = Some 48
   /\ half_size_of_nid NID_secp521r1 = Some 66)
  /\
  (forall (ec_key : EC_KEY) (half_size size : Z) (public_key : option (list Z)),
      half_size_of_nid (EC_KEY_curve_name ec_key) = Some half_size ->
      size < half_size * 2 ->
      public_key <> None \/ size = 0 ->
      ec_get_pub_key assert_enabled (Some ec_key) public_key (Some size)
      = Returns {| ret_val := FALSE; buffer_out := public_key;
                   size_out := Some (half_size * 2) |})
  /\
  (forall (ec_key ec_key' : EC_KEY) (status half_size size : Z)
          (public : option (list Z)),
      EC_KEY_generate_key ec_key = (status, ec_key') ->
      to_uint8 status <> 0 ->
      half_size_of_nid (EC_KEY_curve_name ec_key') = Some half_size ->
      size < half_size * 2 ->
      public <> None \/ size = 0 ->
      ec_generate_key assert_enabled (Some ec_key) public (Some size)
      = Returns ({| ret_val := FALSE; buffer_out := public;
                    size_out := Some (half_size * 2) |}, Some ec_key'))
  /\
  (forall (ec_key : EC_KEY) (half_size hash_nid hash_size sig_size : Z)
          (message_hash signature : list Z),
      half_size_of_nid (EC_KEY_curve_name ec_key) = Some half_size ->
      sig_size < half_size * 2 ->
      ecdsa_sign assert_enabled (Some ec_key) hash_nid (Some message_hash)
        hash_size (Some signature) sig_size
      = Returns {| ret_val := FALSE; buffer_out := Some signature;
                   size_out := Some (half_size * 2) |}).
Proof.
  split; [repeat split|].
  split; [|split].
  - intros. now apply ec_get_pub_key_too_small.
  - intros. now apply ec_generate_key_too_small with (status := status).
  - intros. now apply ecdsa_sign_too_small.
Qed.

End EcFacts.

Section EcExamples.
Import Base Debug Ec Examples.

(** The amended C7 at work on P-256 with the stub OpenSSL: a ten-byte
    buffer for ec_get_pub_key, the size query (NULL, 0) for
    ec_generate_key, and a 63-byte signature buffer for ecdsa_sign. *)
Lemma ec_too_small_buffer_witness :
  ec_get_pub_key (ossl := openssl_stub 1) true (Some NID_X9_62_prime256v1)
    (Some (repeat 0 10)) (Some 10)
  = Returns {| ret_val := FALSE; buffer_out := Some (repeat 0 10);
               size_out := Some 64 |}
  /\
  ec_generate_key (ossl := openssl_stub 1) true (Some NID_X9_62_prime256v1)
    None (Some 0)
  = Returns ({| ret_val := FALSE; buffer_out := None; size_out := Some 64 |},
             Some NID_X9_62_prime256v1)
  /\
  ecdsa_sign (ossl := openssl_stub 1) true (Some NID_X9_62_prime256v1)
    CRYPTO_NID_SHA256 (Some (repeat 0 32)) 32 (Some (repeat 0 63)) 63
  = Returns {| ret_val := FALSE; buffer_out := Some (repeat 0 63);
               size_out := Some 64 |}.
Proof.
  destruct (ec_too_small_buffer_reports_required_size
              (ossl := openssl_stub 1) true)
    as (_ & Hget & Hgen & Hsign).
  split; [|split].
  - apply (Hget NID_X9_62_prime256v1 32 10 (Some (repeat 0 10)));
      [reflexivity | reflexivity | left; discriminate].
  - apply (Hgen NID_X9_62_prime256v1 NID_X9_62_prime256v1 1 32 0 None);
      [reflexivity | discriminate | reflexivity | reflexivity | now right].
  - apply (Hsign NID_X9_62_prime256v1 32 CRYPTO_NID_SHA256 32 63
             (repeat 0 32) (repeat 0 63)); reflexivity.
Defined.

(** C7 as stated fails: a caller that passes a NULL buffer with the nonzero
    size 10 to ec_get_pub_key on a P-256 context gets FALSE, and the size
    behind the pointer is still 10, not the required 64. *)
Lemma ec_get_pub_key_null_buffer_keeps_size :
  ~ (forall (ossl : OpenSSL) (dbg : bool) (ec_key : EC_KEY) (half_size size : Z)
            (public_key : option (list Z)),
        half_size_of_nid (EC_KEY_curve_name ec_key) = Some half_size ->
        0 <= size < half_size * 2 ->
        exists r : sized_result,
          ec_get_pub_key dbg (Some ec_key) public_key (Some size) = Returns r
          /\ ret_val r = FALSE
          /\ size_out r = Some (half_size * 2)).
Proof.
  intros Hclaim.
  destruct (Hclaim (openssl_stub 1) true NID_X9_62_prime256v1 32 10 None)
    as (r & Hrun & _ & Hsize).
  - reflexivity.
  - lia.
  - vm_compute in Hrun. injection Hrun as <-. discriminate.
Qed.

(** The same call, evaluated. *)
Example ec_get_pub_key_null_buffer_run :
  ec_get_pub_key (ossl := openssl_stub 1) true (Some NID_X9_62_prime256v1)
    None (Some 10)
  = Returns {| ret_val := FALSE; buffer_out := None; size_out := Some 10 |}.
Proof. reflexivity. Qed.

(** ecdsa_sign on a P-256 context with a NULL signature pointer and
    sig_size 10: FALSE, and sig_size stays 10. *)
Example ecdsa_sign_null_signature_run :
  ecdsa_sign (ossl := openssl_stub 1) true (Some NID_X9_62_prime256v1)
    CRYPTO_NID_SHA256 (Some (repeat 0 32)) 32 None 10
  = Returns {| ret_val := FALSE; buffer_out := None; size_out := Some 10 |}.
Proof. reflexivity. Qed.

(** ec_generate_key when EC_KEY_generate_key fails: FALSE, and the size
    stays 10 although the buffer is there. *)
Example ec_generate_key_failed_keygen_run :
  ec_generate_key (ossl := openssl_stub 0) true (Some NID_X9_62_prime256v1)
    (Some (repeat 0 10)) (Some 10)
  = Returns ({| ret_val := FALSE; buffer_out := Some (repeat 0 10);
                size_out := Some 10 |}, Some NID_X9_62_prime256v1).
Proof. reflexivity. Qed.

(** With room for the key the stub's coordinates (1, 1) are stored
    right-aligned in the two halves. *)
Example ec_get_pub_key_enough_room_run :
  ec_get_pub_key (ossl := openssl_stub 1) true (Some NID_X9_62_prime256v1)
    (Some (repeat 9 64)) (Some 64)
  = Returns {| ret_val := TRUE;
               buffer_out :=
                 Some (repeat 0 31 ++ [1] ++ repeat 0 31 ++ [1]);
               size_out := Some 64 |}.
Proof. reflexivity. Qed.

End EcExamples.

(** ** aead_chacha20_poly1305.c (dummy backend) *)

Section AeadDummyFacts.
Import Base Debug AeadDummy.

(** A call that runs into ASSERT (FALSE) returns FALSE when ASSERT is
    compiled out and does not return when it is compiled in. *)
Lemma assert_false_then_false (enabled : bool) :
  (ASSERT enabled FALSE ;;; Returns FALSE)
  = if enabled then AssertFailed else Returns FALSE.
Proof. now destruct enabled. Qed.

(** C9.  For every key, IV, AAD, data and tag, of any sizes (so also
    for key_size 32, iv_size 12, tag_size 16), the dummy
    aead_chacha20_poly1305_encrypt and aead_chacha20_poly1305_decrypt return
    FALSE where ASSERT is compiled out; where ASSERT is compiled in they stop
    in ASSERT (FALSE); in neither build does either return TRUE. *)
Theorem dummy_chacha20_poly1305_never_succeeds
  (key : option (list Z)) (key_size : Z) (iv : option (list Z)) (iv_size : Z)
  (a_data : option (list Z)) (a_data_size : Z)
  (data_in : option (list Z)) (data_in_size : Z)
  (tag : option (list Z)) (tag_size : Z)
  (data_out : option (list Z)) (data_out_size : option Z) :
  aead_chacha20_poly1305_encrypt false key key_size iv iv_size
    a_data a_data_size data_in data_in_size tag tag_size
    data_out data_out_size = Returns FALSE
  /\ aead_chacha20_poly1305_decrypt false key key_size iv iv_size
       a_data a_data_size data_in data_in_size tag tag_size
       data_out data_out_size = Returns FALSE
  /\ forall assert_enabled : bool,
       aead_chacha20_poly1305_encrypt assert_enabled key key_size iv iv_size
         a_data a_data_size data_in data_in_size tag tag_size
         data_out data_out_size <> Returns TRUE
       /\ aead_chacha20_poly1305_decrypt assert_enabled key key_size
            iv iv_size a_data a_data_size data_in data_in_size tag tag_size
            data_out data_out_size <> Returns TRUE.
Proof.
  unfold aead_chacha20_poly1305_encrypt, aead_chacha20_poly1305_decrypt.
  repeat split; try (rewrite assert_false_then_false; reflexivity).
  all: rewrite assert_false_then_false; destruct assert_enabled; discriminate.
Qed.

(** The documented sizes, with ASSERT compiled in: the call stops. *)
Example dummy_chacha20_poly1305_asserts :
  aead_chacha20_poly1305_encrypt true (Some (repeat 0 32)) 32
    (Some (repeat 0 12)) 12 None 0 (Some [1; 2; 3]) 3
    (Some (repeat 0 16)) 16 (Some [0; 0; 0]) (Some 3)
  = AssertFailed.
Proof. reflexivity. Qed.

End AeadDummyFacts.

(** ** sha512.c *)

Section Sha512Facts.
Import Base Sha512.
Context {mbed : MbedTLS}.

(** Either check on the data arguments fires on bad data. *)
Lemma bad_data_rejected (data : option (list Z)) (data_size : Z) :
  bad_data data data_size ->
  is_null data && negb (data_size =? 0) = true
  \/ (data_size >? INT_MAX) = true.
Proof.
  intros [[-> Hsize] | Hbig].
  - left. now apply negb_true_iff, Z.eqb_neq.
  - right. now apply Z.gtb_gt.
Qed.

(** A wrapper applied to a NULL object pointer or to bad data: the NULL
    case is the first branch; otherwise one of the two checks fires. *)
Ltac wrapper_rejects Hbad :=
  destruct Hbad as [-> | Hbad]; [reflexivity|];
  match goal with
  | |- match ?object with _ => _ end = _ =>
      destruct object; [|reflexivity]
  end;
  destruct (bad_data_rejected _ _ Hbad) as [Hnull | Hbig];
  [ rewrite Hnull; reflexivity
  | rewrite Hbig;
    match goal with
    | |- (if ?guard then _ else _) = _ => destruct guard; reflexivity
    end ].

Lemma sha384_update_rejects (context : option mbedtls_sha512_context)
  (data : option (list Z)) (data_size : Z) :
  context = None \/ bad_data data data_size ->
  sha384_update context data data_size = rejected context.
Proof. intros Hbad. unfold sha384_update. wrapper_rejects Hbad. Qed.

Lemma sha512_update_rejects (context : option mbedtls_sha512_context)
  (data : option (list Z)) (data_size : Z) :
  context = None \/ bad_data data data_size ->
  sha512_update context data data_size = rejected context.
Proof. intros Hbad. unfold sha512_update. wrapper_rejects Hbad. Qed.

Lemma sha384_hash_all_rejects (data : option (list Z)) (data_size : Z)
  (hash_value : option (list Z)) :
  hash_value = None \/ bad_data data data_size ->
  sha384_hash_all data data_size hash_value = rejected hash_value.
Proof. intros Hbad. unfold sha384_hash_all. wrapper_rejects Hbad. Qed.

Lemma sha512_hash_all_rejects (data : option (list Z)) (data_size : Z)
  (hash_value : option (list Z)) :
  hash_value = None \/ bad_data data data_size ->
  sha512_hash_all data data_size hash_value = rejected hash_value.
Proof. intros Hbad. unfold sha512_hash_all. wrapper_rejects Hbad. Qed.

(** The calls of a wrapper that read through no NULL data pointer. *)
Local Abbreviation calls_are_safe r :=
  (forallb (fun call => negb (reads_null call)) (backend_calls r) = true).

(** Whatever the arguments, the one call a wrapper can make is made with a
    data pointer that is there or with size 0. *)
Ltac wrapper_calls_safe :=
  match goal with
  | |- context [match ?object with _ => _ end] =>
      destruct object; [|reflexivity]
  end;
  match goal with
  | |- context [is_null ?data && negb (?size =? 0)] =>
      destruct data; cbn [is_null andb];
      [ | destruct (size =? 0) eqn:?; cbn [negb]; [|reflexivity] ];
      (destruct (size >? INT_MAX); [reflexivity|])
  end;
  match goal with
  | |- context [let '(_, _) := ?call in _] => destruct call
  end;
  cbn;
  try match goal with
      | Hsize : (_ =? 0) = true |- _ => rewrite Hsize
      end;
  reflexivity.

Lemma sha384_update_calls_safe (context : option mbedtls_sha512_context)
  (data : option (list Z)) (data_size : Z) :
  calls_are_safe (sha384_update context data data_size).
Proof. unfold sha384_update. wrapper_calls_safe. Qed.

Lemma sha512_update_calls_safe (context : option mbedtls_sha512_context)
  (data : option (list Z)) (data_size : Z) :
  calls_are_safe (sha512_update context data data_size).
Proof. unfold sha512_update. wrapper_calls_safe. Qed.

Lemma sha384_hash_all_calls_safe (data : option (list Z)) (data_size : Z)
  (hash_value : option (list Z)) :
  calls_are_safe (sha384_hash_all data data_size hash_value).
Proof. unfold sha384_hash_all. wrapper_calls_safe. Qed.

Lemma sha512_hash_all_calls_safe (data : option (list Z)) (data_size : Z)
  (hash_value : option (list Z)) :
  calls_are_safe (sha512_hash_all data data_size hash_value).
Proof. unfold sha512_hash_all. wrapper_calls_safe. Qed.

(** C10.  sha384_update and sha512_update called with a NULL context, and
    sha384_hash_all and sha512_hash_all called with a NULL hash_value, or any
    of the four called with a NULL data pointer and a nonzero data_size or
    with a data_size above INT_MAX, return FALSE, make no call into mbedTLS
    and leave the object behind their pointer as it was.  And on every
    input, no call they make into mbedTLS reads through a NULL data
    pointer. *)
Theorem sha512_wrappers_reject_null_and_oversized
  (context : option mbedtls_sha512_context) (hash_value : option (list Z))
  (data : option (list Z)) (data_size : Z) :
  (context = None \/ bad_data data data_size ->
   sha384_update context data data_size
   = {| ret_val := FALSE; object_out := context; backend_calls := [] |}
   /\ sha512_update context data data_size
      = {| ret_val := FALSE; object_out := context; backend_calls := [] |})
  /\
  (hash_value = None \/ bad_data data data_size ->
   sha384_hash_all data data_size hash_value
   = {| ret_val := FALSE; object_out := hash_value; backend_calls := [] |}
   /\ sha512_hash_all data data_size hash_value
      = {| ret_val := FALSE; object_out := hash_value; backend_calls := [] |})
  /\
  (forallb (fun call => negb (reads_null call))
     (backend_calls (sha384_update context data data_size)
      ++ backend_calls (sha512_update context data data_size)
      ++ backend_calls (sha384_hash_all data data_size hash_value)
      ++ backend_calls (sha512_hash_all data data_size hash_value)) = true).
Proof.
  split; [|split].
  - intros Hbad.
    now rewrite sha384_update_rejects, sha512_update_rejects.
  - intros Hbad.
    now rewrite sha384_hash_all_rejects, sha512_hash_all_rejects.
  - rewrite !forallb_app.
    rewrite sha384_update_calls_safe, sha512_update_calls_safe.
    rewrite sha384_hash_all_calls_safe, sha512_hash_all_calls_safe.
    reflexivity.
Qed.

End Sha512Facts.

Section Sha512Examples.
Import Base Sha512 Examples.

(** C10 at concrete arguments with the stub mbedTLS: a NULL data pointer
    with size 5 for the update functions, a size of INT_MAX + 1 for the
    one-shot functions. *)
Lemma sha512_wrappers_reject_witness :
  sha384_update (mbed := mbedtls_stub) (Some 0) None 5
  = {| ret_val := FALSE; object_out := Some 0; backend_calls := [] |}
  /\
  sha512_hash_all (mbed := mbedtls_stub) (Some [1]) (INT_MAX + 1)
    (Some (repeat 0 64))
  = {| ret_val := FALSE; object_out := Some (repeat 0 64);
       backend_calls := [] |}.
Proof.
  destruct (sha512_wrappers_reject_null_and_oversized (mbed := mbedtls_stub)
              (Some 0) (Some (repeat 0 64)) None 5)
    as (Hupdate & _ & _).
  destruct (sha512_wrappers_reject_null_and_oversized (mbed := mbedtls_stub)
              (Some 0) (Some (repeat 0 64)) (Some [1]) (INT_MAX + 1))
    as (_ & Hall & _).
  split.
  - apply Hupdate. right. left. split; [reflexivity | discriminate].
  - apply Hall. right. right. reflexivity.
Defined.

(** Accepted arguments reach mbedTLS once: three bytes fed to a context
    that has seen ten, and the size query of an empty message with a NULL
    data pointer. *)
Example sha512_update_accepts :
  sha512_update (mbed := mbedtls_stub) (Some 10) (Some [1; 2; 3]) 3
  = {| ret_val := TRUE; object_out := Some 13;
       backend_calls := [Call_sha512_update_ret (Some [1; 2; 3]) 3] |}
  /\
  sha384_hash_all (mbed := mbedtls_stub) None 0 (Some (repeat 0 48))
  = {| ret_val := TRUE; object_out := Some (repeat 0 48);
       backend_calls := [Call_sha512_ret None 0 1] |}.
Proof. split; reflexivity. Qed.

End Sha512Examples.

(* ===================================================================== *)
(** * Further properties of the embedded code *)
(* ===================================================================== *)

(** ** The handler in every state *)

Section ResponderFrames.
Import Base Mem Spdm Responder ResponderRuns.

Variable response_version : spdm_context_t -> Z.

Local Abbreviation handle :=
  (spdm_responder_handle_response_state response_version).

(** The handler unfolded by case on the state and on the opcode test. *)
Ltac handler_cases c req_code :=
  unfold status_of, context_of, response_size_of, response_of,
    spdm_responder_handle_response_state;
  destruct (response_state c) eqn:Hstate;
  try destruct (negb (req_code =? SPDM_RESPOND_IF_READY)) eqn:Hnew;
  cbn [fst snd libspdm_generate_error_response
       libspdm_generate_extended_error_response spdm_set_connection_state].

(** X1.  In every response state and for every opcode the handler returns
    RETURN_SUCCESS, none of the other statuses its header comment lists, and
    leaves response_state, last_spdm_request and last_spdm_request_size as
    they were: leaving the Busy, NotReady, NeedResync or ProcessingEncap
    state is never the handler's doing. *)
Theorem handler_always_succeeds_and_keeps_response_state
  (c : spdm_context_t) (req_code response_size : Z) (response : list Z) :
  let r := handle c req_code response_size response in
  status_of r = RETURN_SUCCESS
  /\ response_state (context_of r) = response_state c
  /\ last_spdm_request (context_of r) = last_spdm_request c
  /\ last_spdm_request_size (context_of r) = last_spdm_request_size c.
Proof.
  cbv zeta. handler_cases c req_code; repeat split; try assumption.
  all: now destruct (record_not_ready_fields c req_code)
         as (_ & _ & _ & _ & Hrs & _ & Hreq & Hreqsz); congruence.
Qed.

(** X2.  Which call changes what: connection_state changes in state
    NeedResync only; current_token, error_data and the cached request change
    only in state NotReady for an opcode other than RESPOND_IF_READY; and in
    state Normal the handler writes no response at all: context, response
    size and response buffer come back as they were passed. *)
Theorem handler_changes_are_confined
  (c : spdm_context_t) (req_code response_size : Z) (response : list Z) :
  let r := handle c req_code response_size response in
  (response_state c <> SPDM_RESPONSE_STATE_NEED_RESYNC ->
   connection_state (context_of r) = connection_state c)
  /\ (response_state c <> SPDM_RESPONSE_STATE_NOT_READY
      \/ req_code = SPDM_RESPOND_IF_READY ->
      current_token (context_of r) = current_token c
      /\ error_data (context_of r) = error_data c
      /\ cache_spdm_request (context_of r) = cache_spdm_request c
      /\ cache_spdm_request_size (context_of r) = cache_spdm_request_size c)
  /\ (response_state c = SPDM_RESPONSE_STATE_NORMAL ->
      context_of r = c
      /\ response_size_of r = response_size
      /\ response_of r = response).
Proof.
  cbv zeta. split; [|split].
  - intros Hnot. handler_cases c req_code; try reflexivity.
    + now destruct (record_not_ready_fields c req_code)
        as (_ & _ & _ & _ & _ & Hcs & _).
    + now elim Hnot.
  - intros Hkeep. handler_cases c req_code; try (repeat split; fail).
    destruct Hkeep as [Hnot | ->]; [now elim Hnot|].
    now rewrite Z.eqb_refl in Hnew.
  - intros Hnormal. unfold context_of, response_size_of, response_of,
      spdm_responder_handle_response_state.
    rewrite Hnormal. repeat split.
Qed.

(** X3.  A RESPOND_IF_READY that arrives while the responder is still
    NotReady is answered with the very bytes of the RESPONSE_NOT_READY that
    was sent for the original request, token included, and leaves the
    context that request left. *)
Theorem respond_if_ready_repeats_not_ready_reply
  (c : spdm_context_t) (req_code : Z)
  (response_size1 response_size2 : Z) (response1 response2 : list Z) :
  response_state c = SPDM_RESPONSE_STATE_NOT_READY ->
  req_code <> SPDM_RESPOND_IF_READY ->
  let first := handle c req_code response_size1 response1 in
  let again :=
    handle (context_of first) SPDM_RESPOND_IF_READY response_size2 response2 in
  response_of again = response_of first
  /\ response_size_of again = response_size_of first
  /\ context_of again = context_of first.
Proof.
  intros Hstate Hcode first again. subst first again.
  rewrite (handle_not_ready_new_request response_version c) by assumption.
  unfold context_of, response_of, response_size_of. cbn [fst snd].
  assert (Hstill : response_state (record_not_ready c req_code)
                   = SPDM_RESPONSE_STATE_NOT_READY).
  { now destruct (record_not_ready_fields c req_code)
      as (_ & _ & _ & _ & -> & _). }
  unfold spdm_responder_handle_response_state at 1 2 3.
  rewrite Hstill, Z.eqb_refl. repeat split.
Qed.

(** One NOT_READY emission seen from the run: the context it leaves is
    again NotReady, its token is the old current_token and the new
    current_token is inside the uint8 range. *)
Lemma not_ready_step (c : spdm_context_t) (req_code : Z) :
  response_state c = SPDM_RESPONSE_STATE_NOT_READY ->
  let c' := record_not_ready c req_code in
  response_state c' = SPDM_RESPONSE_STATE_NOT_READY
  /\ 0 <= current_token c' < 256
  /\ current_token c' = (current_token c + 1) mod 256
  /\ error_data c' = {| rd_exponent := 1; request_code := req_code;
                        token := current_token c; rd_tm := 1 |}.
Proof.
  intros Hstate. cbv zeta.
  destruct (record_not_ready_fields c req_code)
    as (Herr & Htok & _ & _ & Hrs & _).
  rewrite Hrs, Htok, Herr. repeat split; try assumption.
  all: apply to_uint8_range.
Qed.

Lemma handle_requests_not_ready (req_codes : list Z) :
  forall (c : spdm_context_t) (response_size : Z) (response : list Z),
    response_state c = SPDM_RESPONSE_STATE_NOT_READY ->
    Forall (fun req_code => req_code <> SPDM_RESPOND_IF_READY) req_codes ->
    0 <= current_token c < 256 ->
    current_token
      (fst (handle_requests response_version c req_codes response_size response))
    = (current_token c + Z.of_nat (length req_codes)) mod 256
    /\ forall (k : nat) (req_code : Z),
         nth_error req_codes k = Some req_code ->
         exists sent : list Z,
           nth_error
             (snd (handle_requests response_version c req_codes
                     response_size response)) k = Some sent
           /\ skipn 4 sent
              = error_data_bytes
                  {| rd_exponent := 1; request_code := req_code;
                     token := (current_token c + Z.of_nat k) mod 256;
                     rd_tm := 1 |}.
Proof.
  induction req_codes as [|req_code rest IH];
    intros c response_size response Hstate Hcodes Hrange.
  - cbn. split.
    + rewrite Z.add_0_r, Z.mod_small; [reflexivity | lia].
    + intros [|k] req_code Hnth; discriminate.
  - inversion Hcodes as [|? ? Hcode Hrest]; subst.
    cbn [handle_requests].
    rewrite (handle_not_ready_new_request response_version c) by assumption.
    destruct (not_ready_step c req_code Hstate)
      as (Hstate' & Hrange' & Htok' & Herr').
    specialize (IH (record_not_ready c req_code) response_size response
                  Hstate' Hrest Hrange').
    destruct (handle_requests response_version (record_not_ready c req_code)
                rest response_size response) as [c_end more].
    cbn [fst snd] in *. destruct IH as [IHtok IHsent]. split.
    + rewrite IHtok, Htok', Z.add_mod_idemp_l by lia.
      f_equal. cbn [length]. lia.
    + intros [|k] code Hnth.
      * injection Hnth as <-. eexists. split; [reflexivity|].
        cbn [app skipn]. rewrite Herr', Z.add_0_r, Z.mod_small by lia.
        reflexivity.
      * destruct (IHsent k code Hnth) as (sent & Hsent & Hbytes).
        exists sent. split; [exact Hsent|].
        rewrite Hbytes, Htok', Z.add_mod_idemp_l by lia.
        do 3 f_equal. lia.
Qed.

(** X4.  A responder that stays NotReady and is sent any number of
    requests other than RESPOND_IF_READY numbers its replies consecutively
    modulo 256: the reply to request number k carries that request's opcode
    and the token (current_token + k) mod 256, so a token comes back after
    256 replies, and after n requests current_token is
    (current_token + n) mod 256. *)
Theorem not_ready_tokens_count_modulo_256
  (c : spdm_context_t) (req_codes : list Z)
  (response_size : Z) (response : list Z) :
  response_state c = SPDM_RESPONSE_STATE_NOT_READY ->
  Forall (fun req_code => req_code <> SPDM_RESPOND_IF_READY) req_codes ->
  0 <= current_token c < 256 ->
  let run := handle_requests response_version c req_codes
               response_size response in
  current_token (fst run)
  = (current_token c + Z.of_nat (length req_codes)) mod 256
  /\ (forall (k : nat) (req_code : Z),
         nth_error req_codes k = Some req_code ->
         exists sent : list Z,
           nth_error (snd run) k = Some sent
           /\ skipn 4 sent
              = error_data_bytes
                  {| rd_exponent := 1; request_code := req_code;
                     token := (current_token c + Z.of_nat k) mod 256;
                     rd_tm := 1 |})
  /\ (forall (k : nat) (sent sent' : list Z),
         nth_error (snd run) k = Some sent ->
         nth_error (snd run) (k + 256) = Some sent' ->
         nth 2 (skipn 4 sent') 0 = nth 2 (skipn 4 sent) 0).
Proof.
  intros Hstate Hcodes Hrange run. subst run.
  destruct (handle_requests_not_ready req_codes c response_size response
              Hstate Hcodes Hrange) as [Htok Hsent].
  split; [exact Htok|]. split; [exact Hsent|].
  intros k sent sent' Hk Hk'.
  assert (Hlen : forall (j : nat) (r : list Z),
             nth_error
               (snd (handle_requests response_version c req_codes
                       response_size response)) j = Some r ->
             exists code : Z, nth_error req_codes j = Some code).
  { intros j r Hj. destruct (nth_error req_codes j) as [code|] eqn:Hcode;
      [now exists code|].
    exfalso. clear - Hj Hcode.
    revert c j Hj Hcode.
    induction req_codes as [|code rest IH]; intros c j Hj Hcode.
    - destruct j; discriminate.
    - cbn [handle_requests] in Hj.
      destruct (spdm_responder_handle_response_state response_version c code
                  response_size response) as [[[st c1] rs1] sent1].
      destruct (handle_requests response_version c1 rest response_size
                  response) as [c_end more] eqn:Hrun.
      destruct j as [|j]; [discriminate|].
      cbn [snd nth_error] in Hj, Hcode.
      apply (IH c1 j); [now rewrite Hrun | exact Hcode]. }
  destruct (Hlen _ _ Hk) as (code & Hcode).
  destruct (Hlen _ _ Hk') as (code' & Hcode').
  destruct (Hsent _ _ Hcode) as (s1 & Hs1 & Hb1).
  destruct (Hsent _ _ Hcode') as (s2 & Hs2 & Hb2).
  rewrite Hk in Hs1. injection Hs1 as <-.
  rewrite Hk' in Hs2. injection Hs2 as <-.
  rewrite Hb1, Hb2. cbn [error_data_bytes nth token].
  rewrite Nat2Z.inj_add, Z.add_assoc.
  change (Z.of_nat 256) with (1 * 256).
  now rewrite Z.mod_add by lia.
Qed.

(** X5.  The copy into the cache overwrites the first
    last_spdm_request_size bytes only: what the cache held behind them, for
    instance the tail of a longer request cached earlier, is still there
    after the call, and the cache keeps its length. *)
Theorem not_ready_keeps_cache_tail
  (c : spdm_context_t) (req_code response_size : Z) (response : list Z) :
  response_state c = SPDM_RESPONSE_STATE_NOT_READY ->
  req_code <> SPDM_RESPOND_IF_READY ->
  0 <= last_spdm_request_size c <= Z.of_nat (length (last_spdm_request c)) ->
  last_spdm_request_size c <= Z.of_nat (length (cache_spdm_request c)) ->
  let c' := context_of (handle c req_code response_size response) in
  let n := Z.to_nat (last_spdm_request_size c) in
  cache_spdm_request c'
  = firstn n (last_spdm_request c) ++ skipn n (cache_spdm_request c)
  /\ length (cache_spdm_request c') = length (cache_spdm_request c).
Proof.
  intros Hstate Hcode Hlast Hcache. cbv zeta.
  rewrite (handle_not_ready_new_request response_version c) by assumption.
  unfold context_of. cbn [fst snd].
  destruct (record_not_ready_fields c req_code)
    as (_ & _ & _ & -> & _).
  unfold copy_mem. rewrite store_bytes_at_0, length_firstn, Nat.min_l by lia.
  split; [reflexivity|].
  rewrite length_app, length_firstn, length_skipn. lia.
Qed.

End ResponderFrames.

Section ResponderRunExamples.
Import Base Spdm Responder ResponderRuns Examples.

(** X3 at a context with current_token 7: GET_MEASUREMENTS, then
    RESPOND_IF_READY. *)
Lemma respond_if_ready_repeats_witness :
  let first :=
    spdm_responder_handle_response_state version_11
      (responder_context SPDM_RESPONSE_STATE_NOT_READY 7) 0xE0 64 [] in
  response_of first = [0x11; 0x7F; 0x42; 0; 1; 0xE0; 7; 1]
  /\ response_of
       (spdm_responder_handle_response_state version_11 (context_of first)
          SPDM_RESPOND_IF_READY 32 [0; 0])
     = response_of first.
Proof.
  split; [reflexivity|].
  apply (respond_if_ready_repeats_not_ready_reply version_11
           (responder_context SPDM_RESPONSE_STATE_NOT_READY 7) 0xE0
           64 32 [] [0; 0]); [reflexivity | discriminate].
Defined.

(** X4 at current_token 254 and three requests: tokens 254, 255, 0, and
    current_token 1 afterwards. *)
Lemma not_ready_tokens_witness :
  let run :=
    handle_requests version_11
      (responder_context SPDM_RESPONSE_STATE_NOT_READY 254)
      [0xE0; 0x81; 0x82] 64 [] in
  current_token (fst run) = 1
  /\ exists sent : list Z,
       nth_error (snd run) 2 = Some sent
       /\ skipn 4 sent = [1; 0x82; 0; 1].
Proof.
  destruct (not_ready_tokens_count_modulo_256 version_11
              (responder_context SPDM_RESPONSE_STATE_NOT_READY 254)
              [0xE0; 0x81; 0x82] 64 [])
    as (Htok & Hsent & _).
  - reflexivity.
  - repeat constructor; discriminate.
  - vm_compute. split; [discriminate | reflexivity].
  - split; [exact Htok|]. exact (Hsent 2%nat 0x82 eq_refl).
Defined.

(** X5 at the example context: a four-byte request copied into a six-byte
    cache. *)
Lemma not_ready_keeps_cache_tail_witness :
  let c := responder_context SPDM_RESPONSE_STATE_NOT_READY 7 in
  cache_spdm_request
    (context_of (spdm_responder_handle_response_state version_11 c 0xE0 64 []))
  = [0x11; 0xE0; 0; 0] ++ [0; 0].
Proof.
  apply (not_ready_keeps_cache_tail version_11
           (responder_context SPDM_RESPONSE_STATE_NOT_READY 7) 0xE0 64 []);
    first [reflexivity | discriminate
          | vm_compute; split; discriminate | vm_compute; discriminate].
Defined.

End ResponderRunExamples.

(** ** encap_error.c: the two functions against each other *)

Section EncapErrorAgreement.
Import Base Debug Mem Spdm EncapError.

(** Storing no byte stores nothing. *)
Lemma store_bytes_nil (buf : list Z) (off : Z) : store_bytes buf off [] = buf.
Proof.
  unfold store_bytes. cbn [length app]. rewrite Nat.add_0_r.
  apply firstn_skipn.
Qed.

(** X6.  With an extended_error_data_size of 0 the extended function is
    the plain one: same ASSERT, same status and size, same buffer, whatever
    the extended data pointer holds. *)
Theorem encap_extended_error_without_data_is_plain_error
  {C : Type} (dbg : bool) (context : C) (error_code error_data : Z)
  (extended_error_data : list Z) (response_size : Z) (response : list Z) :
  spdm_generate_encap_extended_error_response dbg context error_code
    error_data 0 extended_error_data response_size response
  = spdm_generate_encap_error_response dbg context error_code error_data
      response_size response.
Proof.
  unfold spdm_generate_encap_extended_error_response,
    spdm_generate_encap_error_response.
  change (to_uintn (sizeof_spdm_error_response_t + 0))
    with sizeof_spdm_error_response_t.
  destruct (ASSERT dbg _); [|reflexivity].
  cbn [bind]. unfold copy_mem. cbn [Z.to_nat firstn].
  now rewrite store_bytes_nil.
Qed.

End EncapErrorAgreement.

(** ** ec.c: the output of the wrappers *)

Section TwoHalves.
Import Mem.

Lemma skipn_repeat_app (n : nat) (rest : list Z) :
  skipn n (repeat 0 n ++ rest) = rest.
Proof.
  rewrite skipn_app, repeat_length, Nat.sub_diag, skipn_all2
    by (rewrite repeat_length; lia).
  reflexivity.
Qed.

(** Two numbers stored right-aligned in the two halves of a zeroed buffer:
    [a] and [b] are the numbers of padding bytes. *)
Lemma store_two_halves_nat (a b : nat) (x y rest : list Z) :
  (a + length x = b + length y)%nat ->
  store_bytes
    (store_bytes (repeat 0 (a + length x + (b + length y)) ++ rest)
       (Z.of_nat a) x)
    (Z.of_nat (a + length x + b)) y
  = repeat 0 a ++ x ++ repeat 0 b ++ y ++ rest.
Proof.
  intros _.
  rewrite !repeat_app, <- !app_assoc.
  rewrite (store_bytes_after_prefix (repeat 0 a))
    by (rewrite repeat_length; apply Nat2Z.id).
  rewrite skipn_repeat_app.
  replace (repeat 0 a ++ x ++ repeat 0 b ++ repeat 0 (length y) ++ rest)
    with ((repeat 0 a ++ x ++ repeat 0 b) ++ repeat 0 (length y) ++ rest)
    by (now rewrite <- !app_assoc).
  rewrite (store_bytes_after_prefix (repeat 0 a ++ x ++ repeat 0 b))
    by (rewrite !length_app, !repeat_length, Nat2Z.id; lia).
  rewrite skipn_repeat_app, <- !app_assoc. reflexivity.
Qed.

(** The same with the sizes and offsets the wrappers compute. *)
Lemma store_two_halves (half_size : Z) (buf x y : list Z) :
  0 < Z.of_nat (length x) <= half_size ->
  0 < Z.of_nat (length y) <= half_size ->
  half_size * 2 <= Z.of_nat (length buf) ->
  store_bytes
    (store_bytes (zero_mem buf (half_size * 2))
       (0 + half_size - Z.of_nat (length x)) x)
    (half_size + half_size - Z.of_nat (length y)) y
  = repeat 0 (Z.to_nat half_size - length x) ++ x
      ++ repeat 0 (Z.to_nat half_size - length y) ++ y
      ++ skipn (Z.to_nat (half_size * 2)) buf.
Proof.
  intros Hx Hy Hbuf. unfold zero_mem.
  rewrite store_bytes_at_0, repeat_length.
  set (a := (Z.to_nat half_size - length x)%nat).
  set (b := (Z.to_nat half_size - length y)%nat).
  replace (Z.to_nat (half_size * 2))
    with (a + length x + (b + length y))%nat by lia.
  replace (0 + half_size - Z.of_nat (length x)) with (Z.of_nat a) by lia.
  replace (half_size + half_size - Z.of_nat (length y))
    with (Z.of_nat (a + length x + b)) by lia.
  apply store_two_halves_nat. lia.
Qed.

End TwoHalves.

Section EcOutputs.
Import Base Debug Mem Ec.
Context {ossl : OpenSSL}.
Variable assert_enabled : bool.

(** Case analysis on every test of a wrapper body. *)
Ltac wrapper_cases :=
  repeat match goal with
    | |- context [match ?x with _ => _ end] => destruct x eqn:?
    | |- context [if ?b then _ else _] => destruct b eqn:?
    end.

(** A half size is one of 32, 48 and 66. *)
Lemma half_size_positive (nid half_size : Z) :
  half_size_of_nid nid = Some half_size -> 0 < half_size <= 66.
Proof.
  intros Hcurve.
  destruct (half_size_of_nid_cases _ _ Hcurve)
    as [[_ ->] | [[_ ->] | [_ ->]]]; lia.
Qed.

Lemma write_public_xy_true (ec_key : EC_KEY) (half_size : Z)
  (public_key : option (list Z)) (r : sized_result) :
  write_public_xy assert_enabled ec_key half_size public_key = Returns r ->
  ret_val r = TRUE ->
  size_out r = Some (half_size * 2).
Proof.
  unfold write_public_xy, ASSERT, TRUE, FALSE.
  wrapper_cases; cbn [bind]; intros [= <-]; cbn; congruence.
Qed.

(** X7.  Whenever ec_get_pub_key, ec_generate_key or ecdsa_sign returns
    TRUE, with any OpenSSL behind it, the context is over one of the three
    curves, the caller's size was at least the required size, the size
    reported back is exactly the required size (not the larger size the
    caller may have passed), and the output buffer was not NULL. *)
Theorem ec_success_reports_exact_size :
  (forall (ec_context : option EC_KEY) (public_key : option (list Z))
          (public_key_size : option Z) (r : sized_result),
      ec_get_pub_key assert_enabled ec_context public_key public_key_size
      = Returns r ->
      ret_val r = TRUE ->
      exists (ec_key : EC_KEY) (half_size size : Z),
        ec_context = Some ec_key /\ public_key_size = Some size
        /\ half_size_of_nid (EC_KEY_curve_name ec_key) = Some half_size
        /\ half_size * 2 <= size
        /\ size_out r = Some (half_size * 2)
        /\ public_key <> None)
  /\
  (forall (ec_context : option EC_KEY) (public : option (list Z))
          (public_size : option Z) (r : sized_result)
          (ec_context' : option EC_KEY),
      ec_generate_key assert_enabled ec_context public public_size
      = Returns (r, ec_context') ->
      ret_val r = TRUE ->
      exists (ec_key : EC_KEY) (half_size size : Z),
        ec_context' = Some ec_key /\ public_size = Some size
        /\ half_size_of_nid (EC_KEY_curve_name ec_key) = Some half_size
        /\ half_size * 2 <= size
        /\ size_out r = Some (half_size * 2)
        /\ public <> None)
  /\
  (forall (ec_context : option EC_KEY) (hash_nid hash_size sig_size : Z)
          (message_hash signature : option (list Z)) (r : sized_result),
      ecdsa_sign assert_enabled ec_context hash_nid message_hash hash_size
        signature sig_size = Returns r ->
      ret_val r = TRUE ->
      exists (ec_key : EC_KEY) (half_size : Z),
        ec_context = Some ec_key
        /\ half_size_of_nid (EC_KEY_curve_name ec_key) = Some half_size
        /\ half_size * 2 <= sig_size
        /\ size_out r = Some (half_size * 2)
        /\ signature <> None).
Proof.
  split; [|split].
  - intros [ec_key|] public_key [size|] r; unfold ec_get_pub_key;
      try (intros [= <-]; discriminate).
    destruct (is_null public_key && negb (size =? 0)) eqn:Hguard;
      [intros [= <-]; discriminate|].
    destruct (half_size_of_nid (EC_KEY_curve_name ec_key))
      as [half_size|] eqn:Hcurve; [|intros [= <-]; discriminate].
    destruct (size <? half_size * 2) eqn:Hsmall;
      [intros [= <-]; discriminate|].
    intros Hrun Htrue. exists ec_key, half_size, size.
    apply Z.ltb_ge in Hsmall.
    pose proof (half_size_positive _ _ Hcurve) as Hpos.
    repeat split; try assumption.
    + eapply write_public_xy_true; eassumption.
    + intros ->. cbn in Hguard.
      apply negb_false_iff, Z.eqb_eq in Hguard. lia.
  - intros [ec_key|] public [size|] r ec_context'; unfold ec_generate_key;
      try (intros [= <- <-]; discriminate).
    destruct (is_null public && negb (size =? 0)) eqn:Hguard;
      [intros [= <- <-]; discriminate|].
    destruct (EC_KEY_generate_key ec_key) as [status ec_key'].
    destruct (to_uint8 status =? 0); [intros [= <- <-]; discriminate|].
    destruct (half_size_of_nid (EC_KEY_curve_name ec_key'))
      as [half_size|] eqn:Hcurve; [|intros [= <- <-]; discriminate].
    destruct (size <? half_size * 2) eqn:Hsmall;
      [intros [= <- <-]; discriminate|].
    destruct (write_public_xy assert_enabled ec_key' half_size public)
      as [r'|] eqn:Hwrite; cbn [bind]; [|discriminate].
    intros [= <- <-] Htrue. exists ec_key', half_size, size.
    apply Z.ltb_ge in Hsmall.
    pose proof (half_size_positive _ _ Hcurve) as Hpos.
    repeat split; try assumption.
    + eapply write_public_xy_true; eassumption.
    + intros ->. cbn in Hguard.
      apply negb_false_iff, Z.eqb_eq in Hguard. lia.
  - intros [ec_key|] hash_nid hash_size sig_size [hash|] [sig|] r;
      unfold ecdsa_sign; try (intros [= <-]; discriminate).
    destruct (half_size_of_nid (EC_KEY_curve_name ec_key))
      as [half_size|] eqn:Hcurve; [|intros [= <-]; discriminate].
    assert (Hwrap : to_uintn (half_size * 2) = half_size * 2).
    { destruct (half_size_of_nid_cases _ _ Hcurve)
        as [[_ ->] | [[_ ->] | [_ ->]]]; reflexivity. }
    rewrite Hwrap.
    destruct (sig_size <? half_size * 2) eqn:Hsmall;
      [intros [= <-]; discriminate|].
    apply Z.ltb_ge in Hsmall.
    intros Hrun Htrue. exists ec_key, half_size.
    repeat split; try assumption; [|discriminate].
    revert Hrun Htrue. unfold ASSERT, TRUE, FALSE.
    wrapper_cases; cbn [bind]; intros [= <-]; cbn; congruence.
Qed.

(** The shared tail on its success path. *)
Lemma write_public_xy_layout (ec_key : EC_KEY) (half_size : Z)
  (buf : list Z) (ec_point : EC_POINT) (bn : BIGNUM) (status : Z)
  (bn_x bn_y : BIGNUM) :
  half_size * 2 <= Z.of_nat (length buf) ->
  EC_KEY_get0_public_key ec_key = Some ec_point ->
  BN_new = Some bn ->
  EC_POINT_get_affine_coordinates ec_key ec_point bn bn
  = (status, bn_x, bn_y) ->
  to_uint8 status <> 0 ->
  BN_num_bytes bn_x = Z.of_nat (length (BN_bn2bin bn_x)) ->
  BN_num_bytes bn_y = Z.of_nat (length (BN_bn2bin bn_y)) ->
  0 < BN_num_bytes bn_x <= half_size ->
  0 < BN_num_bytes bn_y <= half_size ->
  write_public_xy assert_enabled ec_key half_size (Some buf)
  = Returns
      {| ret_val := TRUE;
         buffer_out :=
           Some (repeat 0 (Z.to_nat half_size - length (BN_bn2bin bn_x))
                   ++ BN_bn2bin bn_x
                   ++ repeat 0 (Z.to_nat half_size - length (BN_bn2bin bn_y))
                   ++ BN_bn2bin bn_y
                   ++ skipn (Z.to_nat (half_size * 2)) buf);
         size_out := Some (half_size * 2) |}.
Proof.
  intros Hbuf Hpoint Hnew Hxy Hstatus Hxlen Hylen Hx Hy.
  unfold write_public_xy. rewrite Hpoint, Hnew, Hxy.
  apply Z.eqb_neq in Hstatus. rewrite Hstatus.
  replace (BN_num_bytes bn_x <=? 0) with false by (symmetry; apply Z.leb_gt; lia).
  replace (BN_num_bytes bn_y <=? 0) with false by (symmetry; apply Z.leb_gt; lia).
  replace (BN_num_bytes bn_x <=? half_size) with true
    by (symmetry; apply Z.leb_le; lia).
  replace (BN_num_bytes bn_y <=? half_size) with true
    by (symmetry; apply Z.leb_le; lia).
  cbn [orb andb]. unfold ASSERT. rewrite andb_false_r. cbn [bind].
  rewrite Hxlen, Hylen, store_two_halves by lia.
  reflexivity.
Qed.

(** X8.  When OpenSSL hands out the public point and its coordinates X and
    Y, each of at least one and at most half_size bytes, ec_get_pub_key
    called with a buffer of at least the required size returns TRUE, reports
    the required size, and leaves in the buffer X and Y big-endian, each
    right-aligned in its half and padded with zero bytes on the left; what
    the buffer held behind the key is kept.  ec_generate_key stores the
    public key of the generated key in the same way. *)
Theorem ec_public_key_is_stored_in_two_padded_halves
  (ec_key : EC_KEY) (half_size size : Z) (buf : list Z)
  (ec_point : EC_POINT) (bn : BIGNUM) (status : Z) (bn_x bn_y : BIGNUM) :
  half_size_of_nid (EC_KEY_curve_name ec_key) = Some half_size ->
  half_size * 2 <= size <= Z.of_nat (length buf) ->
  EC_KEY_get0_public_key ec_key = Some ec_point ->
  BN_new = Some bn ->
  EC_POINT_get_affine_coordinates ec_key ec_point bn bn
  = (status, bn_x, bn_y) ->
  to_uint8 status <> 0 ->
  BN_num_bytes bn_x = Z.of_nat (length (BN_bn2bin bn_x)) ->
  BN_num_bytes bn_y = Z.of_nat (length (BN_bn2bin bn_y)) ->
  0 < BN_num_bytes bn_x <= half_size ->
  0 < BN_num_bytes bn_y <= half_size ->
  let stored :=
    {| ret_val := TRUE;
       buffer_out :=
         Some (repeat 0 (Z.to_nat half_size - length (BN_bn2bin bn_x))
                 ++ BN_bn2bin bn_x
                 ++ repeat 0 (Z.to_nat half_size - length (BN_bn2bin bn_y))
                 ++ BN_bn2bin bn_y
                 ++ skipn (Z.to_nat (half_size * 2)) buf);
       size_out := Some (half_size * 2) |} in
  ec_get_pub_key assert_enabled (Some ec_key) (Some buf) (Some size)
  = Returns stored
  /\ forall (ec_key0 : EC_KEY) (keygen_status : Z),
       EC_KEY_generate_key ec_key0 = (keygen_status, ec_key) ->
       to_uint8 keygen_status <> 0 ->
       ec_generate_key assert_enabled (Some ec_key0) (Some buf) (Some size)
       = Returns (stored, Some ec_key).
Proof.
  intros Hcurve Hsize Hpoint Hnew Hxy Hstatus Hxlen Hylen Hx Hy stored.
  assert (Hroom : (size <? half_size * 2) = false) by (apply Z.ltb_ge; lia).
  assert (Hwrite : write_public_xy assert_enabled ec_key half_size (Some buf)
                   = Returns stored).
  { eapply write_public_xy_layout; eauto; lia. }
  split.
  - unfold ec_get_pub_key. cbn [is_null andb].
    now rewrite Hcurve, Hroom.
  - intros ec_key0 keygen_status Hgen Hok. unfold ec_generate_key.
    cbn [is_null andb]. apply Z.eqb_neq in Hok.
    now rewrite Hgen, Hok, Hcurve, Hroom, Hwrite.
Qed.

(** X9.  ecdsa_sign clears the signature buffer before it looks at the
    hash: when the buffer is large enough but hash_size does not match
    hash_nid, or OpenSSL cannot sign, the call returns FALSE with sig_size
    set to the required size and with the first required-size bytes of the
    caller's buffer overwritten with zeros. *)
Theorem ecdsa_sign_failure_clears_signature_buffer
  (ec_key : EC_KEY) (half_size hash_nid hash_size sig_size : Z)
  (message_hash signature : list Z) :
  half_size_of_nid (EC_KEY_curve_name ec_key) = Some half_size ->
  half_size * 2 <= sig_size <= Z.of_nat (length signature) ->
  hash_size_matches hash_nid hash_size = false
  \/ ECDSA_do_sign message_hash (hash_size mod 2 ^ 32) ec_key = None ->
  ecdsa_sign assert_enabled (Some ec_key) hash_nid (Some message_hash)
    hash_size (Some signature) sig_size
  = Returns
      {| ret_val := FALSE;
         buffer_out :=
           Some (repeat 0 (Z.to_nat (half_size * 2))
                   ++ skipn (Z.to_nat (half_size * 2)) signature);
         size_out := Some (half_size * 2) |}.
Proof.
  intros Hcurve Hsize Hfail. unfold ecdsa_sign. rewrite Hcurve.
  assert (Hwrap : to_uintn (half_size * 2) = half_size * 2).
  { destruct (half_size_of_nid_cases _ _ Hcurve)
      as [[_ ->] | [[_ ->] | [_ ->]]]; reflexivity. }
  rewrite Hwrap.
  replace (sig_size <? half_size * 2) with false
    by (symmetry; apply Z.ltb_ge; lia).
  unfold zero_mem. rewrite store_bytes_at_0, repeat_length.
  destruct Hfail as [-> | Hsign]; [reflexivity|].
  destruct (hash_size_matches hash_nid hash_size); [|reflexivity].
  cbn [negb]. now rewrite Hsign.
Qed.

End EcOutputs.

Section EcOutputExamples.
Import Base Debug Ec Examples.

(** X7 with the stub OpenSSL on P-384: a caller that passes a 100-byte
    buffer and gets TRUE is told 96. *)
Lemma ec_success_reports_exact_size_witness :
  exists r : sized_result,
    ec_get_pub_key (ossl := openssl_stub 1) true (Some NID_secp384r1)
      (Some (repeat 9 100)) (Some 100) = Returns r
    /\ ret_val r = TRUE
    /\ size_out r = Some 96.
Proof.
  destruct (ec_get_pub_key (ossl := openssl_stub 1) true (Some NID_secp384r1)
              (Some (repeat 9 100)) (Some 100)) as [r|] eqn:Hrun;
    [|discriminate].
  assert (Htrue : ret_val r = TRUE) by (now injection Hrun as <-).
  destruct (ec_success_reports_exact_size (ossl := openssl_stub 1) true)
    as (Hget & _ & _).
  destruct (Hget _ _ _ _ Hrun Htrue)
    as (ec_key & half_size & size & [= <-] & _ & Hcurve & _ & Hout & _).
  injection Hcurve as <-.
  exists r. repeat split; assumption.
Defined.

(** X8 with the stub OpenSSL on P-256: X = Y = 1 in a 70-byte buffer. *)
Lemma ec_public_key_layout_witness :
  ec_get_pub_key (ossl := openssl_stub 1) true (Some NID_X9_62_prime256v1)
    (Some (repeat 9 70)) (Some 64)
  = Returns {| ret_val := TRUE;
               buffer_out :=
                 Some (repeat 0 31 ++ [1] ++ repeat 0 31 ++ [1]
                         ++ repeat 9 6);
               size_out := Some 64 |}.
Proof.
  apply (ec_public_key_is_stored_in_two_padded_halves
           (ossl := openssl_stub 1) true NID_X9_62_prime256v1 32 64
           (repeat 9 70) tt 0 1 1 1);
    first [reflexivity | discriminate
          | vm_compute; split; discriminate
          | vm_compute; split; [reflexivity | discriminate] ].
Defined.

(** X9 with the stub OpenSSL on P-256: a SHA-256 identifier with a 48-byte
    hash. *)
Lemma ecdsa_sign_failure_witness :
  ecdsa_sign (ossl := openssl_stub 1) true (Some NID_X9_62_prime256v1)
    CRYPTO_NID_SHA256 (Some (repeat 5 48)) 48 (Some (repeat 9 66)) 66
  = Returns {| ret_val := FALSE;
               buffer_out := Some (repeat 0 64 ++ [9; 9]);
               size_out := Some 64 |}.
Proof.
  apply (ecdsa_sign_failure_clears_signature_buffer
           (ossl := openssl_stub 1) true NID_X9_62_prime256v1 32
           CRYPTO_NID_SHA256 48 66 (repeat 5 48) (repeat 9 66));
    first [reflexivity | vm_compute; split; discriminate | now left].
Defined.

End EcOutputExamples.

(** ** ec.c: the wrappers that take a key or a signature in *)

Section EcInputFacts.
Import Base Debug Mem Ec EcInput.
Context {ossl : OpenSSL} {ossl_in : OpenSSLInput}.

(** The conversions of a half size to uint32 and of a required size to
    uintn change nothing. *)
Lemma half_size_conversions (nid half_size : Z) :
  half_size_of_nid nid = Some half_size ->
  to_uint32 half_size = half_size /\ to_uintn (half_size * 2) = half_size * 2.
Proof.
  intros Hcurve.
  destruct (half_size_of_nid_cases _ _ Hcurve)
    as [[_ ->] | [[_ ->] | [_ ->]]]; split; reflexivity.
Qed.

(** X10.  ecdsa_verify answers TRUE only when every check before the
    verification passed and ECDSA_do_verify returned exactly 1: the context,
    hash and signature pointers are there, sig_size is exactly the required
    size of the context's curve, hash_size matches hash_nid, and r and s
    were read from the first and second half of the signature.  An error
    return of ECDSA_do_verify (-1, or any value other than 1) is reported as
    FALSE. *)
Theorem ecdsa_verify_true_only_if_openssl_returned_1
  (ec_context : option EC_KEY) (hash_nid hash_size sig_size : Z)
  (message_hash signature : option (list Z)) :
  ecdsa_verify ec_context hash_nid message_hash hash_size signature sig_size
  = TRUE ->
  exists (ec_key : EC_KEY) (half_size : Z) (hash sig : list Z)
         (blank : ECDSA_SIG) (bn_r bn_s : BIGNUM),
    ec_context = Some ec_key /\ message_hash = Some hash
    /\ signature = Some sig
    /\ half_size_of_nid (EC_KEY_curve_name ec_key) = Some half_size
    /\ sig_size = half_size * 2
    /\ hash_size_matches hash_nid hash_size = true
    /\ ECDSA_SIG_new = Some blank
    /\ BN_bin2bn (load_bytes sig 0 half_size) = Some bn_r
    /\ BN_bin2bn (load_bytes sig half_size half_size) = Some bn_s
    /\ ECDSA_do_verify hash (to_uint32 hash_size)
         (ECDSA_SIG_set0 blank bn_r bn_s) ec_key = 1.
Proof.
  unfold ecdsa_verify, TRUE, FALSE.
  destruct ec_context as [ec_key|], message_hash as [hash|],
    signature as [sig|]; try discriminate.
  destruct ((sig_size >? INT_MAX) || (sig_size =? 0)); [discriminate|].
  destruct (half_size_of_nid (EC_KEY_curve_name ec_key))
    as [half_size|] eqn:Hcurve; [|discriminate].
  destruct (half_size_conversions _ _ Hcurve) as [-> ->].
  destruct (negb (sig_size =? half_size * 2)) eqn:Hsize; [discriminate|].
  destruct (negb (hash_size_matches hash_nid hash_size)) eqn:Hhash;
    [discriminate|].
  destruct ECDSA_SIG_new as [blank|] eqn:Hblank; [|discriminate].
  destruct (BN_bin2bn (load_bytes sig 0 half_size)) as [bn_r|] eqn:Hr;
    [|discriminate].
  destruct (BN_bin2bn (load_bytes sig half_size half_size)) as [bn_s|] eqn:Hs;
    [|discriminate].
  intros Hone. exists ec_key, half_size, hash, sig, blank, bn_r, bn_s.
  apply negb_false_iff in Hsize, Hhash.
  apply Z.eqb_eq in Hsize, Hone.
  repeat split; assumption.
Qed.

(** X11.  ec_set_pub_key takes a public key of exactly the required size:
    it returns TRUE only for a context over one of the three curves, a
    buffer that is there and a size of exactly twice the half size (a
    larger buffer is not accepted, unlike in ec_get_pub_key), and with any
    other size it returns FALSE and leaves the context as it was. *)
Theorem ec_set_pub_key_wants_the_exact_size
  (ec_context : option EC_KEY) (public_key : option (list Z))
  (public_key_size : Z) :
  (forall ec_context' : option EC_KEY,
      ec_set_pub_key ec_context public_key public_key_size
      = (TRUE, ec_context') ->
      exists (ec_key : EC_KEY) (half_size : Z),
        ec_context = Some ec_key /\ public_key <> None
        /\ half_size_of_nid (EC_KEY_curve_name ec_key) = Some half_size
        /\ public_key_size = half_size * 2)
  /\
  (forall (ec_key : EC_KEY) (half_size : Z),
      ec_context = Some ec_key ->
      half_size_of_nid (EC_KEY_curve_name ec_key) = Some half_size ->
      public_key_size <> half_size * 2 ->
      ec_set_pub_key ec_context public_key public_key_size
      = (FALSE, ec_context)).
Proof.
  split.
  - intros ec_context'. unfold ec_set_pub_key, TRUE, FALSE.
    destruct ec_context as [ec_key|], public_key as [pub|];
      try discriminate.
    destruct (half_size_of_nid (EC_KEY_curve_name ec_key))
      as [half_size|] eqn:Hcurve; [|discriminate].
    destruct (negb (public_key_size =? half_size * 2)) eqn:Hsize;
      [discriminate|].
    intros _. exists ec_key, half_size.
    apply negb_false_iff, Z.eqb_eq in Hsize.
    repeat split; try assumption. discriminate.
  - intros ec_key half_size -> Hcurve Hsize. unfold ec_set_pub_key.
    destruct public_key as [pub|]; [|reflexivity].
    apply Z.eqb_neq in Hsize. now rewrite Hcurve, Hsize.
Qed.


(** The switch of ec_new_by_nid and the switch of the other wrappers
    agree: a curve the first accepts has a half size in the second. *)
Lemma openssl_nid_of_has_half_size (nid openssl_nid : Z) :
  openssl_nid_of nid = Some openssl_nid ->
  (nid = CRYPTO_NID_SECP256R1 /\ half_size_of_nid openssl_nid = Some 32)
  \/ (nid = CRYPTO_NID_SECP384R1 /\ half_size_of_nid openssl_nid = Some 48)
  \/ (nid = CRYPTO_NID_SECP521R1 /\ half_size_of_nid openssl_nid = Some 66).
Proof.
  unfold openssl_nid_of.
  destruct (nid =? CRYPTO_NID_SECP256R1) eqn:E256;
    [apply Z.eqb_eq in E256; intros [= <-]; auto|].
  destruct (nid =? CRYPTO_NID_SECP384R1) eqn:E384;
    [apply Z.eqb_eq in E384; intros [= <-]; auto|].
  destruct (nid =? CRYPTO_NID_SECP521R1) eqn:E521;
    [apply Z.eqb_eq in E521; intros [= <-]; auto|].
  discriminate.
Qed.

(** X13.  ec_new_by_nid returns NULL for every identifier other than
    SECP256R1, SECP384R1 and SECP521R1; and, OpenSSL's EC_KEY_set_group
    giving the key the curve of the group, a context it does return is
    over the curve asked for, with the half size (32, 48, 66) that the
    other wrappers compute for it: their switch on the curve cannot reach
    its default case on such a context. *)
Theorem ec_new_by_nid_gives_a_supported_curve (nid : Z) :
  (forall (n status : Z) (ec_group : EC_GROUP) (ec_key0 ec_key : EC_KEY),
      EC_GROUP_new_by_curve_name n = Some ec_group ->
      EC_KEY_set_group ec_key0 ec_group = (status, ec_key) ->
      to_uint8 status <> 0 ->
      EC_KEY_curve_name ec_key = n) ->
  (openssl_nid_of nid = None -> ec_new_by_nid nid = None)
  /\ forall ec_key : EC_KEY,
       ec_new_by_nid nid = Some ec_key ->
       let half_size := half_size_of_nid (EC_KEY_curve_name ec_key) in
       (nid = CRYPTO_NID_SECP256R1 /\ half_size = Some 32)
       \/ (nid = CRYPTO_NID_SECP384R1 /\ half_size = Some 48)
       \/ (nid = CRYPTO_NID_SECP521R1 /\ half_size = Some 66).
Proof.
  intros Hgroup. unfold ec_new_by_nid. split.
  - intros ->. now destruct EC_KEY_new.
  - intros ec_key.
    destruct EC_KEY_new as [ec_key0|]; [|discriminate].
    destruct (openssl_nid_of nid) as [openssl_nid|] eqn:Hnid;
      [|discriminate].
    destruct (EC_GROUP_new_by_curve_name openssl_nid) as [ec_group|] eqn:Hnew;
      [|discriminate].
    destruct (EC_KEY_set_group ec_key0 ec_group) as [status ec_key'] eqn:Hset.
    destruct (to_uint8 status =? 0) eqn:Hstatus; [discriminate|].
    intros [= <-]. apply Z.eqb_neq in Hstatus. cbv zeta.
    rewrite (Hgroup _ _ _ _ _ Hnew Hset Hstatus).
    now apply openssl_nid_of_has_half_size.
Qed.

End EcInputFacts.

(** ** ec.c: a signature from ecdsa_sign given to ecdsa_verify *)

Section EcSignThenVerify.
Import Base Debug Mem Ec EcInput.
Context {ossl : OpenSSL} {ossl_in : OpenSSLInput}.
Variable assert_enabled : bool.

(** ecdsa_sign on its success path: r and s right-aligned in the two
    halves. *)
Lemma ecdsa_sign_layout (ec_key : EC_KEY)
  (half_size hash_nid hash_size sig_size : Z)
  (message_hash signature : list Z) (ecdsa_sig : ECDSA_SIG)
  (bn_r bn_s : BIGNUM) :
  half_size_of_nid (EC_KEY_curve_name ec_key) = Some half_size ->
  half_size * 2 <= sig_size <= Z.of_nat (length signature) ->
  hash_size_matches hash_nid hash_size = true ->
  ECDSA_do_sign message_hash (hash_size mod 2 ^ 32) ec_key = Some ecdsa_sig ->
  ECDSA_SIG_get0 ecdsa_sig = (bn_r, bn_s) ->
  BN_num_bytes bn_r = Z.of_nat (length (BN_bn2bin bn_r)) ->
  BN_num_bytes bn_s = Z.of_nat (length (BN_bn2bin bn_s)) ->
  0 < BN_num_bytes bn_r <= half_size ->
  0 < BN_num_bytes bn_s <= half_size ->
  ecdsa_sign assert_enabled (Some ec_key) hash_nid (Some message_hash)
    hash_size (Some signature) sig_size
  = Returns
      {| ret_val := TRUE;
         buffer_out :=
           Some (repeat 0 (Z.to_nat half_size - length (BN_bn2bin bn_r))
                   ++ BN_bn2bin bn_r
                   ++ repeat 0 (Z.to_nat half_size - length (BN_bn2bin bn_s))
                   ++ BN_bn2bin bn_s
                   ++ skipn (Z.to_nat (half_size * 2)) signature);
         size_out := Some (half_size * 2) |}.
Proof.
  intros Hcurve Hsize Hhash Hsign Hget Hrlen Hslen Hr Hs.
  unfold ecdsa_sign. rewrite Hcurve.
  destruct (half_size_conversions _ _ Hcurve) as [_ ->].
  replace (sig_size <? half_size * 2) with false
    by (symmetry; apply Z.ltb_ge; lia).
  rewrite Hhash, Hsign, Hget. cbn [negb].
  replace (BN_num_bytes bn_r <=? 0) with false by (symmetry; apply Z.leb_gt; lia).
  replace (BN_num_bytes bn_s <=? 0) with false by (symmetry; apply Z.leb_gt; lia).
  replace (BN_num_bytes bn_r <=? half_size) with true
    by (symmetry; apply Z.leb_le; lia).
  replace (BN_num_bytes bn_s <=? half_size) with true
    by (symmetry; apply Z.leb_le; lia).
  cbn [orb andb]. unfold ASSERT. rewrite andb_false_r. cbn [bind].
  rewrite Hrlen, Hslen, store_two_halves by lia.
  reflexivity.
Qed.

(** The two halves of a buffer that begins with two runs of [half_size]
    bytes. *)
Lemma load_two_halves (half_size : Z) (first second rest : list Z) :
  Z.of_nat (length first) = half_size ->
  Z.of_nat (length second) = half_size ->
  load_bytes (first ++ second ++ rest) 0 half_size = first
  /\ load_bytes (first ++ second ++ rest) half_size half_size = second.
Proof.
  intros Hfirst Hsecond. unfold load_bytes. split.
  - cbn [Z.to_nat skipn].
    rewrite firstn_app, firstn_all2 by lia.
    replace (Z.to_nat half_size - length first)%nat with 0%nat by lia.
    cbn [firstn]. apply app_nil_r.
  - rewrite skipn_app, skipn_all2 by lia.
    replace (Z.to_nat half_size - length first)%nat with 0%nat by lia.
    cbn [skipn app].
    rewrite firstn_app, firstn_all2 by lia.
    replace (Z.to_nat half_size - length second)%nat with 0%nat by lia.
    cbn [firstn]. apply app_nil_r.
Qed.

(** X14.  What ecdsa_sign writes, ecdsa_verify reads back.  When OpenSSL
    signs with a pair (r, s), each of at least one and at most half_size
    bytes, and BN_bin2bn undoes BN_bn2bin on r and on s behind their zero
    padding, then ecdsa_sign returns TRUE with a signature of the required
    size, and ecdsa_verify, given that signature with that size, passes all
    its checks and hands the same pair (r, s) to ECDSA_do_verify: its
    answer is whether that call returns 1. *)
Theorem ecdsa_verify_reads_what_ecdsa_sign_wrote
  (ec_key : EC_KEY) (half_size hash_nid hash_size sig_size : Z)
  (message_hash signature : list Z) (ecdsa_sig blank : ECDSA_SIG)
  (bn_r bn_s : BIGNUM) :
  half_size_of_nid (EC_KEY_curve_name ec_key) = Some half_size ->
  half_size * 2 <= sig_size <= Z.of_nat (length signature) ->
  hash_size_matches hash_nid hash_size = true ->
  ECDSA_do_sign message_hash (hash_size mod 2 ^ 32) ec_key = Some ecdsa_sig ->
  ECDSA_SIG_get0 ecdsa_sig = (bn_r, bn_s) ->
  BN_num_bytes bn_r = Z.of_nat (length (BN_bn2bin bn_r)) ->
  BN_num_bytes bn_s = Z.of_nat (length (BN_bn2bin bn_s)) ->
  0 < BN_num_bytes bn_r <= half_size ->
  0 < BN_num_bytes bn_s <= half_size ->
  ECDSA_SIG_new = Some blank ->
  BN_bin2bn (repeat 0 (Z.to_nat half_size - length (BN_bn2bin bn_r))
               ++ BN_bn2bin bn_r) = Some bn_r ->
  BN_bin2bn (repeat 0 (Z.to_nat half_size - length (BN_bn2bin bn_s))
               ++ BN_bn2bin bn_s) = Some bn_s ->
  exists signed : list Z,
    ecdsa_sign assert_enabled (Some ec_key) hash_nid (Some message_hash)
      hash_size (Some signature) sig_size
    = Returns {| ret_val := TRUE; buffer_out := Some signed;
                 size_out := Some (half_size * 2) |}
    /\ length signed = length signature
    /\ ecdsa_verify (Some ec_key) hash_nid (Some message_hash) hash_size
         (Some signed) (half_size * 2)
       = (ECDSA_do_verify message_hash (to_uint32 hash_size)
            (ECDSA_SIG_set0 blank bn_r bn_s) ec_key =? 1).
Proof.
  intros Hcurve Hsize Hhash Hsign Hget Hrlen Hslen Hr Hs Hblank Hrback Hsback.
  eexists. split; [|split].
  - eapply ecdsa_sign_layout; eassumption.
  - rewrite !length_app, !repeat_length, length_skipn. lia.
  - unfold ecdsa_verify. rewrite Hcurve.
    destruct (half_size_conversions _ _ Hcurve) as [-> ->].
    pose proof (half_size_positive _ _ Hcurve) as Hpos.
    replace (half_size * 2 >? INT_MAX) with false
      by (symmetry; rewrite Z.gtb_ltb; apply Z.ltb_ge; unfold INT_MAX; lia).
    replace (half_size * 2 =? 0) with false
      by (symmetry; apply Z.eqb_neq; lia).
    rewrite Z.eqb_refl, Hhash, Hblank. cbn [orb negb].
    replace (repeat 0 (Z.to_nat half_size - length (BN_bn2bin bn_r))
               ++ BN_bn2bin bn_r
               ++ repeat 0 (Z.to_nat half_size - length (BN_bn2bin bn_s))
               ++ BN_bn2bin bn_s
               ++ skipn (Z.to_nat (half_size * 2)) signature)
      with ((repeat 0 (Z.to_nat half_size - length (BN_bn2bin bn_r))
               ++ BN_bn2bin bn_r)
              ++ (repeat 0 (Z.to_nat half_size - length (BN_bn2bin bn_s))
                    ++ BN_bn2bin bn_s)
              ++ skipn (Z.to_nat (half_size * 2)) signature)
      by (now rewrite <- !app_assoc).
    destruct (load_two_halves half_size
                (repeat 0 (Z.to_nat half_size - length (BN_bn2bin bn_r))
                   ++ BN_bn2bin bn_r)
                (repeat 0 (Z.to_nat half_size - length (BN_bn2bin bn_s))
                   ++ BN_bn2bin bn_s)
                (skipn (Z.to_nat (half_size * 2)) signature))
      as [-> ->].
    + rewrite length_app, repeat_length. lia.
    + rewrite length_app, repeat_length. lia.
    + now rewrite Hrback, Hsback.
Qed.

End EcSignThenVerify.

Section EcInputExamples.
Import Base Debug Ec EcInput Examples ExamplesInput.

(** X11 with the stub OpenSSL: a 64-byte key is set on a P-256 context, a
    65-byte one is refused. *)
Lemma ec_set_pub_key_witness :
  ec_set_pub_key (ossl_in := openssl_input_stub)
    (Some NID_X9_62_prime256v1) (Some (repeat 1 65)) 65
  = (FALSE, Some NID_X9_62_prime256v1)
  /\ ec_set_pub_key (ossl_in := openssl_input_stub)
       (Some NID_X9_62_prime256v1) (Some (repeat 1 64)) 64
     = (TRUE, Some NID_X9_62_prime256v1).
Proof.
  split; [|reflexivity].
  destruct (ec_set_pub_key_wants_the_exact_size
              (ossl_in := openssl_input_stub)
              (Some NID_X9_62_prime256v1) (Some (repeat 1 65)) 65)
    as [_ Hrefused].
  apply (Hrefused NID_X9_62_prime256v1 32);
    [reflexivity | reflexivity | discriminate].
Defined.


(** X10 with the stub OpenSSL, whose ECDSA_do_verify returns 1. *)
Lemma ecdsa_verify_witness :
  exists half_size : Z,
    half_size_of_nid NID_secp521r1 = Some half_size
    /\ 132 = half_size * 2.
Proof.
  destruct (ecdsa_verify_true_only_if_openssl_returned_1
              (ossl_in := openssl_input_stub)
              (Some NID_secp521r1) CRYPTO_NID_SHA512 64 132
              (Some (repeat 5 64)) (Some (repeat 1 132)) eq_refl)
    as (ec_key & half_size & hash & sig & blank & bn_r & bn_s
        & Hkey & _ & _ & Hcurve & Hsize & _).
  injection Hkey as <-. exists half_size. split; assumption.
Defined.

(** X13 with the stub OpenSSL, whose EC_KEY_set_group makes the key the
    group's curve. *)
Lemma ec_new_by_nid_witness :
  ec_new_by_nid (ossl_in := openssl_input_stub) 0x0207 = None
  /\ half_size_of_nid NID_secp384r1 = Some 48.
Proof.
  destruct (ec_new_by_nid_gives_a_supported_curve
              (ossl_in := openssl_input_stub) 0x0207) as [Hnone _].
  { intros n status ec_group ec_key0 ec_key [= <-] [= _ <-] _. reflexivity. }
  destruct (ec_new_by_nid_gives_a_supported_curve
              (ossl_in := openssl_input_stub) CRYPTO_NID_SECP384R1)
    as [_ Hsome].
  { intros n status ec_group ec_key0 ec_key [= <-] [= _ <-] _. reflexivity. }
  split; [now apply Hnone|].
  destruct (Hsome NID_secp384r1 eq_refl)
    as [[Hnid _] | [[_ Hhalf] | [Hnid _]]];
    [discriminate | exact Hhalf | discriminate].
Defined.

(** X14 with the stub OpenSSL on P-256: r = s = 1; the signature written
    into a 66-byte buffer verifies. *)
Lemma ecdsa_sign_then_verify_witness :
  exists signed : list Z,
    ecdsa_sign (ossl := openssl_stub 1) true (Some NID_X9_62_prime256v1)
      CRYPTO_NID_SHA256 (Some (repeat 5 32)) 32 (Some (repeat 9 66)) 66
    = Returns {| ret_val := TRUE; buffer_out := Some signed;
                 size_out := Some 64 |}
    /\ ecdsa_verify (ossl_in := openssl_input_stub)
         (Some NID_X9_62_prime256v1) CRYPTO_NID_SHA256 (Some (repeat 5 32)) 32
         (Some signed) 64 = TRUE.
Proof.
  destruct (ecdsa_verify_reads_what_ecdsa_sign_wrote
              (ossl_in := openssl_input_stub) true NID_X9_62_prime256v1 32
              CRYPTO_NID_SHA256 32 66 (repeat 5 32) (repeat 9 66) tt tt 1 1)
    as (signed & Hsign & _ & Hverify);
    try reflexivity;
    try (vm_compute; split; discriminate);
    try (vm_compute; split; [reflexivity | discriminate]).
  exists signed. split; [exact Hsign | exact Hverify].
Defined.

End EcInputExamples.

(** ** sha512.c: the calls that reach mbedTLS *)

Section Sha512Accepting.
Import Base Sha512 Sha512Lifecycle.
Context {mbed : MbedTLS} {mbed_life : MbedTLSLifecycle}.

(** X15.  sha384_update returns TRUE exactly when it made its one call of
    mbedtls_sha512_update_ret, on the caller's context with the caller's data
    pointer and size, and that call returned 0; every other return is
    FALSE.  sha512_update is the same function of its arguments, so a
    context started by either init may be fed through either. *)
Theorem sha512_update_true_iff_backend_returned_0
  (context : option mbedtls_sha512_context) (data : option (list Z))
  (data_size : Z) :
  let r := sha384_update context data data_size in
  (ret_val r = TRUE <->
   exists ctx : mbedtls_sha512_context,
     context = Some ctx
     /\ backend_calls r = [Call_sha512_update_ret data data_size]
     /\ fst (mbedtls_sha512_update_ret ctx data data_size) = 0)
  /\ sha512_update context data data_size = r.
Proof.
  cbv zeta. split; [|reflexivity].
  unfold sha384_update, rejected, TRUE, FALSE.
  destruct context as [ctx|]; [|split; [discriminate | now intros (? & ? & _)]].
  destruct (is_null data && negb (data_size =? 0));
    [split; [discriminate | now intros (? & _ & ? & _)]|].
  destruct (data_size >? INT_MAX);
    [split; [discriminate | now intros (? & _ & ? & _)]|].
  destruct (mbedtls_sha512_update_ret ctx data data_size)
    as [status ctx'] eqn:Hcall.
  cbn [ret_val backend_calls]. split.
  - intros Htrue. exists ctx. rewrite Hcall. cbn [fst].
    repeat split. destruct (status =? 0) eqn:Hzero; [|discriminate].
    now apply Z.eqb_eq.
  - intros (ctx0 & [= <-] & _ & Hzero). rewrite Hcall in Hzero.
    cbn [fst] in Hzero. now rewrite Hzero.
Qed.

(** X16.  sha384_hash_all and sha512_hash_all return TRUE exactly when they
    made their one call of mbedtls_sha512_ret with the caller's data pointer
    and size and it returned 0; the two differ in nothing but the is384
    argument of that call, 1 for SHA-384 and 0 for SHA-512. *)
Theorem sha512_hash_all_true_iff_backend_returned_0
  (data : option (list Z)) (data_size : Z) (hash_value : option (list Z)) :
  (ret_val (sha384_hash_all data data_size hash_value) = TRUE <->
   exists out : list Z,
     hash_value = Some out
     /\ backend_calls (sha384_hash_all data data_size hash_value)
        = [Call_sha512_ret data data_size 1]
     /\ fst (mbedtls_sha512_ret data data_size out 1) = 0)
  /\
  (ret_val (sha512_hash_all data data_size hash_value) = TRUE <->
   exists out : list Z,
     hash_value = Some out
     /\ backend_calls (sha512_hash_all data data_size hash_value)
        = [Call_sha512_ret data data_size 0]
     /\ fst (mbedtls_sha512_ret data data_size out 0) = 0).
Proof.
  split.
  - unfold sha384_hash_all, rejected, TRUE, FALSE.
    destruct hash_value as [out|];
      [|split; [discriminate | now intros (? & ? & _)]].
    destruct (is_null data && negb (data_size =? 0));
      [split; [discriminate | now intros (? & _ & ? & _)]|].
    destruct (data_size >? INT_MAX);
      [split; [discriminate | now intros (? & _ & ? & _)]|].
    destruct (mbedtls_sha512_ret data data_size out 1)
      as [status out'] eqn:Hcall.
    cbn [ret_val backend_calls]. split.
    + intros Htrue. exists out. rewrite Hcall. cbn [fst].
      repeat split. destruct (status =? 0) eqn:Hzero; [|discriminate].
      now apply Z.eqb_eq.
    + intros (out0 & [= <-] & _ & Hzero). rewrite Hcall in Hzero.
      cbn [fst] in Hzero. now rewrite Hzero.
  - unfold sha512_hash_all, rejected, TRUE, FALSE.
    destruct hash_value as [out|];
      [|split; [discriminate | now intros (? & ? & _)]].
    destruct (is_null data && negb (data_size =? 0));
      [split; [discriminate | now intros (? & _ & ? & _)]|].
    destruct (data_size >? INT_MAX);
      [split; [discriminate | now intros (? & _ & ? & _)]|].
    destruct (mbedtls_sha512_ret data data_size out 0)
      as [status out'] eqn:Hcall.
    cbn [ret_val backend_calls]. split.
    + intros Htrue. exists out. rewrite Hcall. cbn [fst].
      repeat split. destruct (status =? 0) eqn:Hzero; [|discriminate].
      now apply Z.eqb_eq.
    + intros (out0 & [= <-] & _ & Hzero). rewrite Hcall in Hzero.
      cbn [fst] in Hzero. now rewrite Hzero.
Qed.

(** X17.  sha384_final and sha512_final, the same function of their
    arguments: with a NULL context or a NULL hash_value they return FALSE,
    call nothing and leave both as they were; otherwise they call
    mbedtls_sha512_finish_ret and then mbedtls_sha512_free, so the context
    is freed also when finishing failed, and they return TRUE exactly when
    mbedtls_sha512_finish_ret returned 0. *)
Theorem sha512_final_always_frees_the_context
  (context : option mbedtls_sha512_context) (hash_value : option (list Z)) :
  let r := sha384_final context hash_value in
  (context = None \/ hash_value = None ->
   r = {| final_ret := FALSE; final_context := context;
          final_hash_value := hash_value; final_calls := [] |})
  /\ (forall (ctx : mbedtls_sha512_context) (out : list Z),
        context = Some ctx -> hash_value = Some out ->
        let finished := mbedtls_sha512_finish_ret ctx out in
        final_calls r = [Call_sha512_finish_ret; Call_sha512_free]
        /\ final_context r = Some (mbedtls_sha512_free (snd (fst finished)))
        /\ final_hash_value r = Some (snd finished)
        /\ (final_ret r = TRUE <-> fst (fst finished) = 0))
  /\ sha512_final context hash_value = r.
Proof.
  cbv zeta. split; [|split; [|reflexivity]].
  - intros [-> | ->]; [reflexivity | now destruct context].
  - intros ctx out -> ->. unfold sha384_final, TRUE, FALSE.
    destruct (mbedtls_sha512_finish_ret ctx out) as [[status ctx'] out'].
    cbn. repeat split.
    + destruct (status =? 0) eqn:Hzero; [|discriminate].
      intros _. now apply Z.eqb_eq.
    + now intros ->.
Qed.

(** X18.  sha384_init and sha512_init with a NULL context return FALSE and
    call nothing; otherwise each calls mbedtls_sha512_init and then
    mbedtls_sha512_starts_ret, with is384 = 1 for SHA-384 and 0 for SHA-512,
    the only place where the two families part, and returns TRUE exactly
    when the latter returned 0.  sha384_duplicate and sha512_duplicate are
    the same function, TRUE exactly when both pointers are there. *)
Theorem sha512_init_selects_the_variant
  (context new_context : option mbedtls_sha512_context) :
  (context = None ->
   sha384_init context = (FALSE, None, [])
   /\ sha512_init context = (FALSE, None, []))
  /\ (forall ctx : mbedtls_sha512_context,
        context = Some ctx ->
        let started384 :=
          mbedtls_sha512_starts_ret (mbedtls_sha512_init ctx) 1 in
        let started512 :=
          mbedtls_sha512_starts_ret (mbedtls_sha512_init ctx) 0 in
        sha384_init context
        = (fst started384 =? 0, Some (snd started384),
           [Call_sha512_init; Call_sha512_starts_ret 1])
        /\ sha512_init context
           = (fst started512 =? 0, Some (snd started512),
              [Call_sha512_init; Call_sha512_starts_ret 0]))
  /\ sha512_duplicate context new_context
     = sha384_duplicate context new_context
  /\ (fst (fst (sha384_duplicate context new_context)) = TRUE <->
      context <> None /\ new_context <> None).
Proof.
  split; [|split; [|split]].
  - now intros ->.
  - intros ctx ->. cbv zeta. unfold sha384_init, sha512_init, TRUE, FALSE.
    destruct (mbedtls_sha512_starts_ret (mbedtls_sha512_init ctx) 1)
      as [status1 ctx1].
    destruct (mbedtls_sha512_starts_ret (mbedtls_sha512_init ctx) 0)
      as [status0 ctx0].
    cbn [fst snd].
    now destruct (status1 =? 0), (status0 =? 0).
  - reflexivity.
  - unfold sha384_duplicate, TRUE, FALSE.
    destruct context, new_context; cbn [fst]; split;
      try discriminate; try (intros [? ?]; congruence).
    intros _. split; discriminate.
Qed.

End Sha512Accepting.

Section Sha512LifecycleExamples.
Import Base Sha512 Sha512Lifecycle Examples ExamplesInput.

(** X17 with the stub mbedTLS, whose finish fails on a context that has
    seen no byte: the context is freed all the same. *)
Lemma sha512_final_witness :
  sha384_final (mbed_life := mbedtls_lifecycle_stub) None (Some (repeat 0 48))
  = {| final_ret := FALSE; final_context := None;
       final_hash_value := Some (repeat 0 48); final_calls := [] |}
  /\ final_calls
       (sha384_final (mbed_life := mbedtls_lifecycle_stub)
          (Some 0) (Some (repeat 0 48)))
     = [Call_sha512_finish_ret; Call_sha512_free]
  /\ final_ret
       (sha384_final (mbed_life := mbedtls_lifecycle_stub)
          (Some 0) (Some (repeat 0 48))) = FALSE.
Proof.
  destruct (sha512_final_always_frees_the_context
              (mbed_life := mbedtls_lifecycle_stub) None (Some (repeat 0 48)))
    as (Hnull & _ & _).
  destruct (sha512_final_always_frees_the_context
              (mbed_life := mbedtls_lifecycle_stub) (Some 0)
              (Some (repeat 0 48)))
    as (_ & Hcalls & _).
  destruct (Hcalls 0 (repeat 0 48) eq_refl eq_refl) as (Hlog & _).
  split; [apply Hnull; now left|]. split; [exact Hlog | reflexivity].
Defined.

(** X18 with the stub mbedTLS: init of a NULL context and of a context. *)
Lemma sha512_init_witness :
  sha384_init (mbed_life := mbedtls_lifecycle_stub) None = (FALSE, None, [])
  /\ sha512_init (mbed_life := mbedtls_lifecycle_stub) (Some 5)
     = (TRUE, Some 0, [Call_sha512_init; Call_sha512_starts_ret 0]).
Proof.
  destruct (sha512_init_selects_the_variant
              (mbed_life := mbedtls_lifecycle_stub) None None)
    as (Hnull & _).
  destruct (sha512_init_selects_the_variant
              (mbed_life := mbedtls_lifecycle_stub) (Some 5) None)
    as (_ & Hinit & _).
  split; [now apply Hnull|].
  now destruct (Hinit 5 eq_refl) as [_ ->].
Defined.

End Sha512LifecycleExamples.
